(** * StudySync: a shallow embedding of the client-side logic

    The application is a set of React pages that validate forms with zod,
    call the Firebase client SDK and keep component state with [useState].
    This development embeds the handlers of those pages as state-passing
    functions and proves the properties the specification states about them.

    Conventions.
    - A JavaScript string is the list of its UTF-16 code units ([list N]).
    - A Firestore document is a finite map from field names to values.
    - An [async] handler is a computation in a state monad over the page's
      component state and the outside world (document store, toasts, router);
      the outcome of each remote call is an argument of the handler.          *)

From Stdlib Require Import ZArith NArith Lia Ascii String List.
From stdpp Require Import base option list gmap strings.

Set Default Proof Using "Type".

(* ===================================================================== *)
(** ** JavaScript strings                                                  *)
(* ===================================================================== *)

Abbreviation char := N (only parsing).
Abbreviation jsstring := (list N) (only parsing).

(** The code units of an ASCII literal of the source. *)
Fixpoint js (s : string) : jsstring :=
  match s with
  | EmptyString => []
  | String a s' => N_of_ascii a :: js s'
  end.
Arguments js s%_string.

(** ECMAScript LineTerminator: LF, CR, LS, PS. *)
Definition is_line_terminator (c : char) : bool :=
  ((c =? 10) || (c =? 13) || (c =? 8232) || (c =? 8233))%N.

(** ECMAScript WhiteSpace (TAB, VT, FF, SP, NBSP, ZWNBSP and category Zs). *)
Definition is_white_space (c : char) : bool :=
  ((c =? 9) || (c =? 11) || (c =? 12) || (c =? 32) || (c =? 160) ||
   (c =? 5760) || ((8192 <=? c) && (c <=? 8202)) || (c =? 8239) ||
   (c =? 8287) || (c =? 12288) || (c =? 65279))%N.

(** What [String.prototype.trim] strips: WhiteSpace and LineTerminator. *)
Definition is_trimmable (c : char) : bool :=
  is_white_space c || is_line_terminator c.

Fixpoint trimStart (s : jsstring) : jsstring :=
  match s with
  | c :: s' => if is_trimmable c then trimStart s' else s
  | [] => []
  end.

Definition trimEnd (s : jsstring) : jsstring := rev (trimStart (rev s)).

(** [s.trim()] *)
Definition trim (s : jsstring) : jsstring := trimEnd (trimStart s).

(** The text is empty or made of white space and line terminators only. *)
Definition blank (s : jsstring) : Prop :=
  Forall (fun c => is_trimmable c = true) s.

(** Truthiness of a string: the empty string is the only falsy one. *)
Definition truthy (s : jsstring) : bool :=
  match s with [] => false | _ :: _ => true end.

(** Truthiness of [string | null]. *)
Definition truthy_opt (o : option jsstring) : bool :=
  match o with None => false | Some s => truthy s end.

(* ===================================================================== *)
(** ** Regular expressions ([RegExp.prototype.test] on anchored patterns)  *)
(* ===================================================================== *)

Module Regex.

(** The fragment of the pattern language the source uses. *)
Inductive regex : Type :=
| Void                         (* matches nothing; arises from derivatives *)
| Eps                          (* the empty pattern *)
| Lit (l : jsstring)           (* a sequence of literal characters *)
| Dot                          (* [.]: any character but a line terminator *)
| Seq (r1 r2 : regex)          (* r1r2 *)
| Alt (r1 r2 : regex)          (* r1|r2 *)
| Star (r : regex).            (* r* *)

(** [r?] and [r+]. *)
Definition Opt (r : regex) : regex := Alt r Eps.
Definition Plus (r : regex) : regex := Seq r (Star r).

Fixpoint nullable (r : regex) : bool :=
  match r with
  | Void => false
  | Eps => true
  | Lit l => match l with [] => true | _ => false end
  | Dot => false
  | Seq r1 r2 => nullable r1 && nullable r2
  | Alt r1 r2 => nullable r1 || nullable r2
  | Star _ => true
  end.

(** Brzozowski derivative of [r] by the character [c]. *)
Fixpoint deriv (c : char) (r : regex) : regex :=
  match r with
  | Void => Void
  | Eps => Void
  | Lit [] => Void
  | Lit (x :: l) => if (c =? x)%N then Lit l else Void
  | Dot => if is_line_terminator c then Void else Eps
  | Seq r1 r2 =>
      if nullable r1 then Alt (Seq (deriv c r1) r2) (deriv c r2)
      else Seq (deriv c r1) r2
  | Alt r1 r2 => Alt (deriv c r1) (deriv c r2)
  | Star r1 => Seq (deriv c r1) (Star r1)
  end.

(** [/^r$/.test(s)]: the whole of [s] is in the language of [r]. *)
Fixpoint test (r : regex) (s : jsstring) : bool :=
  match s with
  | [] => nullable r
  | c :: s' => test (deriv c r) s'
  end.

(** The language of a pattern, as a relation. *)
Inductive star (P : jsstring -> Prop) : jsstring -> Prop :=
| star_nil : star P []
| star_app s1 s2 : P s1 -> star P s2 -> star P (s1 ++ s2).

Fixpoint lang (r : regex) (s : jsstring) : Prop :=
  match r with
  | Void => False
  | Eps => s = []
  | Lit l => s = l
  | Dot => exists c, s = [c] /\ is_line_terminator c = false
  | Seq r1 r2 => exists s1 s2, s = s1 ++ s2 /\ lang r1 s1 /\ lang r2 s2
  | Alt r1 r2 => lang r1 s \/ lang r2 s
  | Star r1 => star (lang r1) s
  end.

End Regex.

(* ===================================================================== *)
(** ** The document store (Firestore) as the client observes it            *)
(* ===================================================================== *)

Module Firestore.

(** Field values the application writes. [VServerTimestamp] is the
    [serverTimestamp()] sentinel, which the server replaces by its clock. *)
Inductive Value : Type :=
| VStr (s : jsstring)
| VBool (b : bool)
| VNum (n : Z)
| VNull
| VUndefined
| VServerTimestamp.

#[global] Instance Value_eq_dec : EqDecision Value.
Proof. solve_decision. Defined.

(** A document: field name to value.  A collection: document id to
    document.  The store: collection name to collection. *)
Abbreviation Doc := (gmap string Value) (only parsing).
Abbreviation Collection := (gmap (list N) (gmap string Value)) (only parsing).
Abbreviation Store := (gmap string (gmap (list N) (gmap string Value)))
  (only parsing).

(** An object literal [{ k1: v1, ... }]. *)
Definition obj (fields : list (string * Value)) : Doc := list_to_map fields.

(** The error object a rejected SDK promise carries. *)
Record FirebaseError : Type := { code : jsstring; message : jsstring }.

(** The three write calls the application issues. *)
Inductive Call : Type :=
| AddDoc (coll : string) (data : Doc)
| SetDoc (coll : string) (id : jsstring) (data : Doc)
| UpdateDoc (coll : string) (id : jsstring) (data : Doc).

(** What the environment decides about one write: the id the SDK draws for
    a new document ([addDoc] only), and whether the backend rejects. *)
Record Net : Type := { autoId : jsstring; failure : option FirebaseError }.

Inductive result (A : Type) : Type :=
| Ok (a : A)
| Err (e : FirebaseError).
Arguments Ok {A} a.
Arguments Err {A} e.

Definition docs_of (st : Store) (coll : string) : Collection :=
  default ∅ (st !! coll).

(** The SDK refuses data holding [undefined] before any request is sent. *)
Definition has_undefined (d : Doc) : bool :=
  bool_decide (VUndefined ∈ (map_to_list d).*2).

Definition invalid_argument : FirebaseError :=
  {| code := js "invalid-argument"; message := js "Unsupported field value: undefined" |}.
Definition already_exists : FirebaseError :=
  {| code := js "already-exists"; message := js "Document already exists" |}.
Definition not_found : FirebaseError :=
  {| code := js "not-found"; message := js "No document to update" |}.

(** The effect of one write on the store, and what its promise settles to.
    - [addDoc] creates a document under a new id (the write carries the
      precondition that the id is unused);
    - [setDoc] without merge replaces the document;
    - [updateDoc] overwrites the given fields of an existing document and
      fails on a missing one. *)
Definition exec (net : Net) (c : Call) (st : Store) : result jsstring * Store :=
  match c with
  | AddDoc coll data =>
      if has_undefined data then (Err invalid_argument, st) else
      match failure net with
      | Some e => (Err e, st)
      | None =>
          match docs_of st coll !! autoId net with
          | Some _ => (Err already_exists, st)
          | None => (Ok (autoId net),
                     <[coll := <[autoId net := data]> (docs_of st coll)]> st)
          end
      end
  | SetDoc coll id data =>
      if has_undefined data then (Err invalid_argument, st) else
      match failure net with
      | Some e => (Err e, st)
      | None => (Ok id, <[coll := <[id := data]> (docs_of st coll)]> st)
      end
  | UpdateDoc coll id data =>
      if has_undefined data then (Err invalid_argument, st) else
      match failure net with
      | Some e => (Err e, st)
      | None =>
          match docs_of st coll !! id with
          | None => (Err not_found, st)
          | Some old =>
              (Ok id, <[coll := <[id := data ∪ old]> (docs_of st coll)]> st)
          end
      end
  end.

#[global] Arguments exec : simpl never.

(** Reading one field of one document. *)
Definition field (st : Store) (coll : string) (id : jsstring) (k : string)
  : option Value :=
  docs_of st coll !! id ≫= (fun d : gmap string Value => d !! k).

End Firestore.
Export Firestore.

(* ===================================================================== *)
(** ** Effects of a handler                                                *)
(* ===================================================================== *)

Inductive Variant : Type := Default | Destructive.

(** The argument of [toast({ variant, title, description })]. *)
Record Toast : Type :=
  { t_variant : Variant; t_title : string; t_description : option string }.

(** A Firebase Authentication identity. *)
Record Account : Type :=
  { acc_email : jsstring; acc_displayName : option jsstring }.

(** Everything outside the component a handler can touch. *)
Record World : Type :=
  { store : gmap string (gmap (list N) (gmap string Value));
    accounts : gmap (list N) Account;   (* identities of the auth service *)
    calls : list Call;                  (* write calls issued, oldest first *)
    toasts : list Toast;                (* toasts shown, oldest first *)
    routes : list string }.             (* [router.push] targets, oldest first *)

(** The signed-in user as [useAuth()] provides it. *)
Record User : Type := { uid : jsstring; displayName : option jsstring }.

Definition opt_str (o : option jsstring) : Value :=
  match o with Some s => VStr s | None => VNull end.

(** A handler over component state [P]: it reads and writes the component
    state and the world, and returns a value. *)
Definition M (P A : Type) : Type := P * World -> A * (P * World).

#[global] Instance M_ret P : MRet (M P) := fun A a s => (a, s).
#[global] Instance M_bind P : MBind (M P) :=
  fun A B f m s => let '(a, s') := m s in f a s'.

Section Effects.
Context {P : Type}.

(** A [useState] setter (or several in a row). *)
Definition setState (f : P -> P) : M P unit :=
  fun '(p, w) => (tt, (f p, w)).

Definition getState : M P P := fun '(p, w) => (p, (p, w)).

Definition on_world (f : World -> World) : M P unit :=
  fun '(p, w) => (tt, (p, f w)).

Definition toast (t : Toast) : M P unit :=
  on_world (fun w => {| store := store w; accounts := accounts w;
                        calls := calls w; toasts := toasts w ++ [t];
                        routes := routes w |}).

Definition router_push (path : string) : M P unit :=
  on_world (fun w => {| store := store w; accounts := accounts w;
                        calls := calls w; toasts := toasts w;
                        routes := routes w ++ [path] |}).

(** [await] of a write call: the call is logged, the store changes as the
    backend decides, and the promise's outcome is returned (a rejection is
    what the enclosing [try] catches). *)
Definition write (net : Net) (c : Call) : M P (result jsstring) :=
  fun '(p, w) =>
    let '(r, st') := exec net c (store w) in
    (r, (p, {| store := st'; accounts := accounts w;
               calls := calls w ++ [c]; toasts := toasts w;
               routes := routes w |})).

Definition skip : M P unit := mret tt.

(** Final component state and world of a handler. *)
Definition run {A} (m : M P A) (p : P) (w : World) : P * World := (m (p, w)).2.

End Effects.

(** A world in which nothing has happened yet. *)
Definition empty_world : World :=
  {| store := ∅; accounts := ∅; calls := []; toasts := []; routes := [] |}.

(** The world after one write call [c] that left the store as [st'], with
    the toasts and redirects that followed it. *)
Definition with_call (c : Call) (st' : gmap string (gmap (list N) (gmap string Value)))
    (new_toasts : list Toast) (new_routes : list string) (w : World) : World :=
  {| store := st'; accounts := accounts w; calls := calls w ++ [c];
     toasts := toasts w ++ new_toasts; routes := routes w ++ new_routes |}.

(* ===================================================================== *)
(** ** Form validation (zod) and submission (react-hook-form)              *)
(* ===================================================================== *)

Module Zod.

(** A validation issue: the field it is attached to and its message. *)
Record Issue : Type := { path : string; msg : string }.

(** [z.string().min(n, { message })] on the field [p]. *)
Definition min (n : nat) (p m : string) (s : jsstring) : list Issue :=
  if length s <? n then [ {| path := p; msg := m |} ] else [].

(** A refinement [.refine(pred, { message, path })]. *)
Definition refine (ok : bool) (p m : string) : list Issue :=
  if ok then [] else [ {| path := p; msg := m |} ].

(** The outcome of [schema.safeParse(raw)]. *)
Inductive parsed (V : Type) : Type :=
| Success (data : V)
| Failure (issues : list Issue).
Arguments Success {V} data.
Arguments Failure {V} issues.

(** Whether the parse succeeded. *)
Definition accepts {V} (p : parsed V) : bool :=
  match p with Success _ => true | Failure _ => false end.

End Zod.
Export Zod.

(** The part of [useForm] the pages rely on: current field values and the
    field-level errors of [formState.errors]. *)
Record Form (Raw : Type) : Type :=
  { values : Raw; fieldErrors : list Issue }.
Arguments values {Raw} _.
Arguments fieldErrors {Raw} _.

(** Component states that own a form. *)
Class HasForm (P Raw : Type) : Type :=
  { getForm : P -> Form Raw;
    setForm : Form Raw -> P -> P;
    defaultValues : Raw }.

Section ReactHookForm.
Context {P Raw V : Type} `{HasForm P Raw}.

(** [form.handleSubmit(onValid)]: the resolver validates the current
    values; on failure the issues become the field errors and [onValid] is
    not called; on success the field errors are cleared and [onValid]
    receives the parsed data. *)
Definition handleSubmit (resolver : Raw -> parsed V) (onValid : V -> M P unit)
  : M P unit :=
  p ← getState;
  match resolver (values (getForm p)) with
  | Failure issues =>
      setState (setForm {| values := values (getForm p); fieldErrors := issues |})
  | Success data =>
      setState (setForm {| values := values (getForm p); fieldErrors := [] |});;
      onValid data
  end.

(** [form.reset()] *)
Definition form_reset : M P unit :=
  setState (setForm {| values := defaultValues; fieldErrors := [] |}).

End ReactHookForm.

(* ===================================================================== *)
(** ** ask-doubt/page.tsx                                                   *)
(* ===================================================================== *)

Module AskDoubt.

Record Values : Type := { subject : jsstring; description : jsstring }.

(** [formSchema] *)
Definition formSchema (v : Values) : parsed Values :=
  match min 1 "subject" "Please select a subject." (subject v) ++
        min 10 "description" "Description must be at least 10 characters."
          (description v)
  with
  | [] => Success v
  | issues => Failure issues
  end.

Record State : Type :=
  { form : Form Values; isSubmitting : bool; error : option string }.

#[global] Instance State_form : HasForm State Values :=
  {| getForm := form;
     setForm f s := {| form := f; isSubmitting := isSubmitting s; error := error s |};
     defaultValues := {| subject := []; description := [] |} |}.

Definition setError (e : option string) : M State unit :=
  setState (fun s => {| form := form s; isSubmitting := isSubmitting s; error := e |}).
Definition setIsSubmitting (b : bool) : M State unit :=
  setState (fun s => {| form := form s; isSubmitting := b; error := error s |}).

(** The document [onSubmit] adds to the doubts collection. *)
Definition doubt_doc (user : User) (values : Values) : gmap string Value :=
  obj [ ("userId", VStr (uid user));
        ("userName", opt_str (displayName user));
        ("subject", VStr (subject values));
        ("description", VStr (description values));
        ("createdAt", VServerTimestamp);
        ("isResolved", VBool false) ].

Definition post_failed : string :=
  "Post Failed: An unexpected error occurred. Please check the console for details.".

(** [onSubmit] *)
Definition onSubmit (user : option User) (db : bool) (net : Net) (values : Values)
  : M State unit :=
  match user, db with
  | Some user, true =>
      setError None;;
      setIsSubmitting true;;
      r ← write net (AddDoc "doubts" (doubt_doc user values));
      match r with
      | Ok _ =>
          toast {| t_variant := Default; t_title := "Success!";
                   t_description := Some "Your doubt has been posted successfully." |};;
          form_reset;;
          router_push "/doubts"
      | Err _ =>
          setError (Some post_failed)
      end;;
      setIsSubmitting false
  | _, _ =>
      toast {| t_variant := Destructive; t_title := "Configuration Error";
                   t_description := Some "Firebase is not configured correctly. Please check your setup." |}
  end.

(** The form's [onSubmit={form.handleSubmit(onSubmit)}]. *)
Definition submit (user : option User) (db : bool) (net : Net) : M State unit :=
  handleSubmit formSchema (onSubmit user db net).

End AskDoubt.

(* ===================================================================== *)
(** ** upload-notes/page.tsx                                                *)
(* ===================================================================== *)

Module ShareResource.
Import Regex.

Inductive ResourceType : Type := Youtube | Drive.

(** The form's raw values.  [resourceType] is a radio group over the two
    enum members ([None] is an unset group); [description] is optional. *)
Record Raw : Type :=
  { r_topic : jsstring;
    r_subject : jsstring;
    r_description : option jsstring;
    r_resourceType : option ResourceType;
    r_url : jsstring }.

(** [z.infer<typeof formSchema>] *)
Record Values : Type :=
  { topic : jsstring;
    subject : jsstring;
    description : option jsstring;
    resourceType : ResourceType;
    url : jsstring }.

Fixpoint alts (rs : list regex) : regex :=
  match rs with
  | [] => Void
  | [r] => r
  | r :: rs' => Alt r (alts rs')
  end.

(** [(https?:\/\/)?] *)
Definition scheme : regex :=
  Opt (Seq (Lit (js "http")) (Seq (Opt (Lit (js "s"))) (Lit (js "://")))).

(** The YouTube pattern of the refinement:
    [^(https?:\/\/)?(www\.)?(youtube\.com|youtu\.?be|m\.youtube\.com|y2u\.be|
      yt\.be|music\.youtube\.com|gaming\.youtube\.com|studio\.youtube\.com|
      shorts\.youtube\.com|youtube-nocookie\.com)\/.+$] *)
Definition youtube_hosts : list regex :=
  [ Lit (js "youtube.com");
    Seq (Lit (js "youtu")) (Seq (Opt (Lit (js "."))) (Lit (js "be")));
    Lit (js "m.youtube.com");
    Lit (js "y2u.be");
    Lit (js "yt.be");
    Lit (js "music.youtube.com");
    Lit (js "gaming.youtube.com");
    Lit (js "studio.youtube.com");
    Lit (js "shorts.youtube.com");
    Lit (js "youtube-nocookie.com") ].

Definition youtube_re : regex :=
  Seq scheme
   (Seq (Opt (Lit (js "www.")))
     (Seq (alts youtube_hosts)
       (Seq (Lit (js "/")) (Plus Dot)))).

(** The Drive pattern: [^(https?:\/\/)?(drive\.google\.com)\/.+$] *)
Definition drive_re : regex :=
  Seq scheme
   (Seq (Lit (js "drive.google.com"))
     (Seq (Lit (js "/")) (Plus Dot))).

(** The callback of [.refine]: the pattern is chosen by the co-selected
    resource type. *)
Definition url_matches_type (ty : ResourceType) (u : jsstring) : bool :=
  match ty with
  | Youtube => test youtube_re u
  | Drive => test drive_re u
  end.

(** *** The generic URL check

    [z.string().url()] accepts a string when [new URL(s)] does not throw.
    The page gives the parser no base URL, so the parser fails on every
    input that does not start with a scheme (its scheme-start and scheme
    states, after stripping).  [has_scheme] is that necessary condition;
    the schema below takes the check as a parameter. *)
Definition is_alpha (c : char) : bool :=
  (((65 <=? c) && (c <=? 90)) || ((97 <=? c) && (c <=? 122)))%N.
Definition is_digit (c : char) : bool := ((48 <=? c) && (c <=? 57))%N.
Definition is_scheme_char (c : char) : bool :=
  (is_alpha c || is_digit c || (c =? 43) || (c =? 45) || (c =? 46))%N.
Definition is_c0_or_space (c : char) : bool := (c <=? 32)%N.
Definition is_tab_or_newline (c : char) : bool :=
  ((c =? 9) || (c =? 10) || (c =? 13))%N.

Fixpoint strip_leading (s : jsstring) : jsstring :=
  match s with
  | c :: s' => if is_c0_or_space c then strip_leading s' else s
  | [] => []
  end.

Definition url_input (s : jsstring) : jsstring :=
  filter (fun c => negb (is_tab_or_newline c))
         (rev (strip_leading (rev (strip_leading s)))).

Fixpoint scheme_state (s : jsstring) : bool :=
  match s with
  | [] => false
  | c :: s' =>
      if (c =? 58)%N then true
      else if is_scheme_char c then scheme_state s' else false
  end.

Definition has_scheme (s : jsstring) : bool :=
  match url_input s with
  | c :: s' => is_alpha c && scheme_state s'
  | [] => false
  end.

Section Schema.
(** [z.string().url()]'s verdict on a string. *)
Variable url_check : jsstring -> bool.

(** Issues of the object's own fields, in the order of the shape. *)
Definition field_issues (v : Raw) : list Issue :=
  min 5 "topic" "Topic must be at least 5 characters." (r_topic v) ++
  min 1 "subject" "Please select a subject." (r_subject v) ++
  match r_resourceType v with
  | None => [ {| path := "resourceType"; msg := "You need to select a resource type." |} ]
  | Some _ => []
  end ++
  refine (url_check (r_url v)) "url" "Please enter a valid URL.".

(** [formSchema]: the object schema followed by the refinement.  A missing
    [resourceType] aborts the object, and the refinement is not run; a
    failed string check does not, and the refinement adds its issue. *)
Definition formSchema (v : Raw) : parsed Values :=
  match r_resourceType v with
  | None => Failure (field_issues v)
  | Some ty =>
      match field_issues v ++
            refine (url_matches_type ty (r_url v)) "url"
              "Please enter a valid URL for the selected resource type."
      with
      | [] => Success {| topic := r_topic v; subject := r_subject v;
                         description := r_description v;
                         resourceType := ty; url := r_url v |}
      | issues => Failure issues
      end
  end.

Record State : Type :=
  { form : Form Raw; isSubmitting : bool; error : option string }.

#[global] Instance State_form : HasForm State Raw :=
  {| getForm := form;
     setForm f s := {| form := f; isSubmitting := isSubmitting s; error := error s |};
     defaultValues := {| r_topic := []; r_subject := []; r_description := Some [];
                         r_resourceType := Some Youtube; r_url := [] |} |}.

Definition setError (e : option string) : M State unit :=
  setState (fun s => {| form := form s; isSubmitting := isSubmitting s; error := e |}).
Definition setIsSubmitting (b : bool) : M State unit :=
  setState (fun s => {| form := form s; isSubmitting := b; error := error s |}).

Definition type_name (ty : ResourceType) : jsstring :=
  match ty with Youtube => js "youtube" | Drive => js "drive" end.

Definition opt_field (o : option jsstring) : Value :=
  match o with Some s => VStr s | None => VUndefined end.

(** The document [onSubmit] adds to the notes collection. *)
Definition note_doc (user : User) (values : Values) : gmap string Value :=
  obj [ ("userId", VStr (uid user));
        ("userName", opt_str (displayName user));
        ("topic", VStr (topic values));
        ("subject", VStr (subject values));
        ("description", opt_field (description values));
        ("resourceUrl", VStr (url values));
        ("resourceType", VStr (type_name (resourceType values)));
        ("createdAt", VServerTimestamp) ].

Definition share_failed : string :=
  "An unexpected error occurred while saving your resource. Please try again.".

(** [onSubmit] *)
Definition onSubmit (user : option User) (db : bool) (net : Net) (values : Values)
  : M State unit :=
  match user, db with
  | Some user, true =>
      setError None;;
      setIsSubmitting true;;
      r ← write net (AddDoc "notes" (note_doc user values));
      match r with
      | Ok _ =>
          toast {| t_variant := Default; t_title := "Success!";
                   t_description := Some "Your resource has been shared successfully." |};;
          form_reset;;
          router_push "/notes"
      | Err _ =>
          setError (Some share_failed)
      end;;
      setIsSubmitting false
  | _, _ =>
      toast {| t_variant := Destructive; t_title := "Configuration Error";
               t_description := Some "Firebase is not configured correctly. Please check your setup." |}
  end.

(** The form's [onSubmit={form.handleSubmit(onSubmit)}]. *)
Definition submit (user : option User) (db : bool) (net : Net) : M State unit :=
  handleSubmit formSchema (onSubmit user db net).

End Schema.

(** An input of the form whose URL has no scheme. *)
Definition schemeless_youtube : Raw :=
  {| r_topic := js "Quick Sort Algorithm Explained";
     r_subject := js "DSA";
     r_description := Some [];
     r_resourceType := Some Youtube;
     r_url := js "youtube.com/watch?v=dQw4w9WgXcQ" |}.

End ShareResource.

(* ===================================================================== *)
(** ** Live queries ([onSnapshot])                                          *)
(* ===================================================================== *)

(** What an [onSnapshot] listener is called with: the complete current
    result set, or an error. *)
Inductive SnapshotEvent (T : Type) : Type :=
| Next (docs : list T)
| Error (e : FirebaseError).
Arguments Next {T} docs.
Arguments Error {T} e.

(** The documents of the feed, as the interfaces of DoubtsFeed.tsx declare
    them ([createdAt] is [null] until the server has set it). *)
Module FeedTypes.

Record Doubt : Type :=
  { id : jsstring;
    userId : jsstring;
    userName : jsstring;
    subject : jsstring;
    description : jsstring;
    createdAt : option N;
    isResolved : bool }.

Record Answer : Type :=
  { a_id : jsstring;
    a_userId : jsstring;
    a_userName : jsstring;
    a_text : jsstring;
    a_createdAt : option N }.

End FeedTypes.

(* ===================================================================== *)
(** ** doubts/DoubtsFeed.tsx: AnswerList                                    *)
(* ===================================================================== *)

Module AnswerList.
Import FeedTypes.

Record State : Type :=
  { answers : list Answer; loading : bool; fetchError : option jsstring }.

(** The initial [useState] values. *)
Definition init : State :=
  {| answers := []; loading := true; fetchError := None |}.

Definition not_connected_msg : jsstring :=
  js "The application is not connected to the database. Please check your Firebase configuration.".

Definition index_msg : jsstring :=
  js "This feature requires a database index. Please open your browser's developer console (F12). You will find a link in the red Firebase error message. Click that link to create the index in the Firebase Console, then wait a few minutes and refresh this page.".

Definition unexpected_msg (m : jsstring) : jsstring :=
  js "An unexpected database error occurred: " ++ m.

(** The effect's early exit when [db] is null: no subscription is made. *)
Definition mount_without_db (st : State) : State :=
  {| answers := answers st; loading := false;
     fetchError := Some not_connected_msg |}.

(** The success callback of [onSnapshot]. *)
Definition onNext (docs : list Answer) (st : State) : State :=
  {| answers := docs; fetchError := None; loading := false |}.

(** The error callback of [onSnapshot]. *)
Definition onError (e : FirebaseError) (st : State) : State :=
  {| answers := answers st;
     fetchError :=
       Some (if bool_decide (code e = js "failed-precondition")
             then index_msg
             else unexpected_msg (message e));
     loading := false |}.

Definition handle (ev : SnapshotEvent Answer) (st : State) : State :=
  match ev with
  | Next docs => onNext docs st
  | Error e => onError e st
  end.

(** The state after the events [evs] of one subscription, oldest first.
    The error callback is the last call a listener receives: once it has
    fired, [onSnapshot] calls neither callback again, and the effect does
    not subscribe anew. *)
Fixpoint deliver (evs : list (SnapshotEvent Answer)) (st : State) : State :=
  match evs with
  | [] => st
  | Next docs :: evs' => deliver evs' (onNext docs st)
  | Error e :: _ => onError e st
  end.

Inductive View : Type :=
| Skeletons
| ErrorAlert (title : string) (body : jsstring)
| NoAnswersYet
| AnswerCards (l : list Answer).

Definition render (st : State) : View :=
  if loading st then Skeletons
  else match fetchError st with
       | Some (c :: m) =>
           ErrorAlert "Action Required: Database Index Missing" (c :: m)
       | _ =>
           match answers st with
           | [] => NoAnswersYet
           | l => AnswerCards l
           end
       end.

End AnswerList.

(* ===================================================================== *)
(** ** doubts/DoubtsFeed.tsx: DoubtDetailsDialog                            *)
(* ===================================================================== *)

Module DoubtDetailsDialog.
Import FeedTypes.

Record State : Type := { answer : jsstring; isSubmitting : bool }.

Definition setAnswer (a : jsstring) : M State unit :=
  setState (fun s => {| answer := a; isSubmitting := isSubmitting s |}).
Definition setIsSubmitting (b : bool) : M State unit :=
  setState (fun s => {| answer := answer s; isSubmitting := b |}).

(** The document [handleSubmit] adds to the answers collection. *)
Definition answer_doc (doubt : Doubt) (user : User) (text : jsstring)
  : gmap string Value :=
  obj [ ("doubtId", VStr (id doubt));
        ("userId", VStr (uid user));
        ("userName", opt_str (displayName user));
        ("text", VStr text);
        ("createdAt", VServerTimestamp) ].

(** [handleSubmit] *)
Definition handleSubmit (doubt : Doubt) (user : option User) (db : bool)
    (net : Net) : M State unit :=
  match user with
  | None =>
      toast {| t_variant := Destructive; t_title := "Login Required";
               t_description := None |};;
      router_push "/login"
  | Some user =>
      if negb db then
        toast {| t_variant := Destructive; t_title := "Error";
                 t_description := Some "Database not configured." |}
      else
        st ← getState;
        match trim (answer st) with
        | [] =>
            toast {| t_variant := Destructive; t_title := "Empty Answer";
                     t_description := Some "Please provide text for your answer." |}
        | _ :: _ =>
            setIsSubmitting true;;
            r ← write net (AddDoc "answers" (answer_doc doubt user (answer st)));
            match r with
            | Ok _ =>
                toast {| t_variant := Default; t_title := "Answer submitted!";
                         t_description := None |};;
                setAnswer []
            | Err _ =>
                toast {| t_variant := Destructive; t_title := "Error";
                         t_description := Some "Could not submit your answer." |}
            end;;
            setIsSubmitting false
        end
  end.

End DoubtDetailsDialog.

(* ===================================================================== *)
(** ** doubts/DoubtsFeed.tsx: DoubtsFeed                                    *)
(* ===================================================================== *)

Module DoubtsFeed.
Import FeedTypes.

Record State : Type := { doubts : list Doubt; loading : bool }.

Definition init : State := {| doubts := []; loading := true |}.

Definition setDoubts (l : list Doubt) : M State unit :=
  setState (fun s => {| doubts := l; loading := loading s |}).
Definition setLoading (b : bool) : M State unit :=
  setState (fun s => {| doubts := doubts s; loading := b |}).

Definition not_configured : Toast :=
  {| t_variant := Destructive; t_title := "Error";
     t_description := Some "Database not configured." |}.

(** The effect's early exit when [db] is null. *)
Definition mount_without_db : M State unit :=
  setLoading false;; toast not_configured.

(** The success callback of [onSnapshot]. *)
Definition onNext (docs : list Doubt) : M State unit :=
  setDoubts docs;; setLoading false.

(** The error callback of [onSnapshot]. *)
Definition onError (e : FirebaseError) : M State unit :=
  toast {| t_variant := Destructive; t_title := "Error";
           t_description := Some "Could not fetch doubts." |};;
  setLoading false.

Definition handle (ev : SnapshotEvent Doubt) : M State unit :=
  match ev with
  | Next docs => onNext docs
  | Error e => onError e
  end.

(** The feed after the events [evs] of the subscription, oldest first;
    nothing is delivered after an error. *)
Fixpoint deliver (evs : list (SnapshotEvent Doubt)) : M State unit :=
  match evs with
  | [] => skip
  | Next docs :: evs' => onNext docs;; deliver evs'
  | Error e :: _ => onError e
  end.

(** [handleMarkAsResolved].  The [await] is not inside a [try]: when the
    update is rejected the handler ends there and shows no toast. *)
Definition handleMarkAsResolved (db : bool) (net : Net) (doubtId : jsstring)
  : M State unit :=
  if negb db then toast not_configured
  else
    r ← write net (UpdateDoc "doubts" doubtId (obj [("isResolved", VBool true)]));
    match r with
    | Ok _ =>
        toast {| t_variant := Default; t_title := "Resolved!";
                 t_description := Some "You've marked this doubt as resolved." |}
    | Err _ => skip
    end.

(** What a card of the grid offers. *)
Record Card : Type :=
  { c_doubt : Doubt;
    resolvedBadge : bool;      (* the green Resolved badge *)
    viewAndAnswer : bool;      (* the dialog trigger *)
    resolveButton : bool }.    (* the Resolve button *)

(** [user?.uid === doubt.userId] *)
Definition is_author (user : option User) (d : Doubt) : bool :=
  match user with
  | Some u => bool_decide (uid u = userId d)
  | None => false
  end.

Definition card (user : option User) (d : Doubt) : Card :=
  {| c_doubt := d;
     resolvedBadge := isResolved d;
     viewAndAnswer := true;
     resolveButton := is_author user d && negb (isResolved d) |}.

Inductive View : Type :=
| LoadingSkeleton
| QuietInHere
| Grid (cards : list Card).

Definition render (user : option User) (st : State) : View :=
  if loading st then LoadingSkeleton
  else match doubts st with
       | [] => QuietInHere
       | l => Grid (map (card user) l)
       end.

End DoubtsFeed.

(* ===================================================================== *)
(** ** notes/page.tsx                                                       *)
(* ===================================================================== *)

Module NotesPage.

Inductive ResourceType : Type := Youtube | Drive.

(** [interface Resource] *)
Record Resource : Type :=
  { id : jsstring;
    topic : jsstring;
    subject : jsstring;
    description : option jsstring;
    resourceUrl : jsstring;
    resourceType : ResourceType;
    userName : jsstring;
    createdAt : option N }.

Record State : Type :=
  { resources : list Resource; loading : bool; error : option string }.

Definition init : State :=
  {| resources := []; loading := true; error := None |}.

(** The effect's early exit when [db] is null. *)
Definition mount_without_db (st : State) : State :=
  {| resources := resources st;
     error := Some "Database not available. Please check Firebase configuration.";
     loading := false |}.

(** The success callback of [onSnapshot]. *)
Definition onNext (docs : list Resource) (st : State) : State :=
  {| resources := docs; loading := false; error := error st |}.

(** The error callback of [onSnapshot]. *)
Definition onError (e : FirebaseError) (st : State) : State :=
  {| resources := resources st;
     error := Some "Failed to fetch resources from the database.";
     loading := false |}.

Definition handle (ev : SnapshotEvent Resource) (st : State) : State :=
  match ev with
  | Next docs => onNext docs st
  | Error e => onError e st
  end.

(** The state after the events [evs] of the subscription, oldest first;
    nothing is delivered after an error. *)
Fixpoint deliver (evs : list (SnapshotEvent Resource)) (st : State) : State :=
  match evs with
  | [] => st
  | Next docs :: evs' => deliver evs' (onNext docs st)
  | Error e :: _ => onError e st
  end.

(** The parts of the page below the heading; each is shown or not. *)
Record View : Type :=
  { skeletons : bool;
    errorAlert : option string;
    nothingHereYet : bool;
    cards : list Resource }.

Definition shown (e : option string) : bool :=
  match e with
  | Some (String _ _) => true
  | _ => false
  end.

Definition render (st : State) : View :=
  {| skeletons := loading st;
     errorAlert := if shown (error st) then error st else None;
     nothingHereYet :=
       negb (loading st) && negb (shown (error st)) &&
       bool_decide (length (resources st) = 0);
     cards :=
       if negb (loading st) && negb (shown (error st)) then resources st
       else [] |}.

End NotesPage.

(* ===================================================================== *)
(** ** The dashboard page                                                   *)
(* ===================================================================== *)

Module Dashboard.

(** A [PromiseSettledResult]. *)
Inductive Settled (T : Type) : Type :=
| Fulfilled (value : T)
| Rejected (reason : FirebaseError).
Arguments Fulfilled {T} value.
Arguments Rejected {T} reason.

(** A promise is pending ([None]) or settled. *)
Abbreviation Promise T := (option (Settled T)) (only parsing).

(** [Promise.allSettled]: it settles once every input has settled, with
    the outcomes in the order of the inputs, and never rejects. *)
Fixpoint allSettled {T} (ps : list (option (Settled T)))
  : option (list (Settled T)) :=
  match ps with
  | [] => Some []
  | p :: ps' =>
      match p, allSettled ps' with
      | Some r, Some rs => Some (r :: rs)
      | _, _ => None
      end
  end.

(** A [QuerySnapshot]: the matching documents, each an id and its data. *)
Abbreviation QuerySnapshot := (list (list N * gmap string Value))
  (only parsing).

(** [{ id: doc.id, ...doc.data() }]: the spread comes last, so a data
    field named [id] would take precedence. *)
Definition with_id (d : list N * gmap string Value) : gmap string Value :=
  d.2 ∪ {[ "id" := VStr d.1 ]}.

Record State : Type :=
  { myDoubts : list (gmap string Value);
    myNotes : list (gmap string Value);
    myAnswers : list (gmap string Value);
    doubtsError : option jsstring;
    notesError : option jsstring;
    answersError : option jsstring;
    loading : bool }.

Definition init : State :=
  {| myDoubts := []; myNotes := []; myAnswers := [];
     doubtsError := None; notesError := None; answersError := None;
     loading := true |}.

Definition setMyDoubts l : M State unit := setState (fun s =>
  {| myDoubts := l; myNotes := myNotes s; myAnswers := myAnswers s;
     doubtsError := doubtsError s; notesError := notesError s;
     answersError := answersError s; loading := loading s |}).
Definition setMyNotes l : M State unit := setState (fun s =>
  {| myDoubts := myDoubts s; myNotes := l; myAnswers := myAnswers s;
     doubtsError := doubtsError s; notesError := notesError s;
     answersError := answersError s; loading := loading s |}).
Definition setMyAnswers l : M State unit := setState (fun s =>
  {| myDoubts := myDoubts s; myNotes := myNotes s; myAnswers := l;
     doubtsError := doubtsError s; notesError := notesError s;
     answersError := answersError s; loading := loading s |}).
Definition setDoubtsError e : M State unit := setState (fun s =>
  {| myDoubts := myDoubts s; myNotes := myNotes s; myAnswers := myAnswers s;
     doubtsError := e; notesError := notesError s;
     answersError := answersError s; loading := loading s |}).
Definition setNotesError e : M State unit := setState (fun s =>
  {| myDoubts := myDoubts s; myNotes := myNotes s; myAnswers := myAnswers s;
     doubtsError := doubtsError s; notesError := e;
     answersError := answersError s; loading := loading s |}).
Definition setAnswersError e : M State unit := setState (fun s =>
  {| myDoubts := myDoubts s; myNotes := myNotes s; myAnswers := myAnswers s;
     doubtsError := doubtsError s; notesError := notesError s;
     answersError := e; loading := loading s |}).
Definition setLoading b : M State unit := setState (fun s =>
  {| myDoubts := myDoubts s; myNotes := myNotes s; myAnswers := myAnswers s;
     doubtsError := doubtsError s; notesError := notesError s;
     answersError := answersError s; loading := b |}).

(** The three branches after the [await]. *)
Definition handleResult
    (setData : list (gmap string Value) -> M State unit)
    (setErr : option jsstring -> M State unit)
    (r : Settled (list (list N * gmap string Value))) : M State unit :=
  match r with
  | Fulfilled value => setData (map with_id value)
  | Rejected reason => setErr (Some (message reason))
  end.

(** [fetchData].  The three [getDocs] promises are the arguments; the code
    after [await Promise.allSettled([...])] runs once it has settled. *)
Definition fetchData (db : bool)
    (doubtsQ notesQ answersQ : option (Settled (list (list N * gmap string Value))))
  : M State unit :=
  setLoading true;;
  if negb db then setLoading false
  else
    setDoubtsError None;;
    setNotesError None;;
    setAnswersError None;;
    match allSettled [doubtsQ; notesQ; answersQ] with
    | Some [doubtsResult; notesResult; answersResult] =>
        handleResult setMyDoubts setDoubtsError doubtsResult;;
        handleResult setMyNotes setNotesError notesResult;;
        handleResult setMyAnswers setAnswersError answersResult;;
        setLoading false
    | _ => skip
    end.

(** The body of the page's [useEffect]. *)
Definition effect (authLoading : bool) (user : option User) (db : bool)
    (doubtsQ notesQ answersQ : option (Settled (list (list N * gmap string Value))))
  : M State unit :=
  match user with
  | None =>
      if negb authLoading then
        router_push "/login";;
        toast {| t_variant := Destructive; t_title := "Authentication Required";
                 t_description := Some "You need to be logged in to view the dashboard." |}
      else skip
  | Some _ => fetchData db doubtsQ notesQ answersQ
  end.

(** [TabContentTemplate]: the error panel, the items, or the empty note. *)
Inductive TabView : Type :=
| IndexErrorMessage
| Items (data : list (gmap string Value))
| EmptyMessage.

Definition tabContent (data : list (gmap string Value)) (error : option jsstring)
  : TabView :=
  if truthy_opt error then IndexErrorMessage
  else match data with
       | [] => EmptyMessage
       | _ => Items data
       end.

(** The three sources of the page. *)
Inductive Source : Type := Doubts | Notes | Answers.

Definition data_of (s : Source) (st : State) : list (gmap string Value) :=
  match s with
  | Doubts => myDoubts st
  | Notes => myNotes st
  | Answers => myAnswers st
  end.

Definition error_of (s : Source) (st : State) : option jsstring :=
  match s with
  | Doubts => doubtsError st
  | Notes => notesError st
  | Answers => answersError st
  end.

(** A settled query that failed. *)
Definition is_rejected {T} (r : Settled T) : bool :=
  match r with Rejected _ => true | Fulfilled _ => false end.

(** [r] is the record of the document [d]: it has the fields of the
    document's data, and the field [id] holds the document's id unless the
    data has a field of that name. *)
Definition is_record_of (r : gmap string Value)
    (d : list N * gmap string Value) : Prop :=
  forall k : string,
    r !! k = if decide (k = "id") then Some (default (VStr d.1) (d.2 !! "id"))
             else d.2 !! k.

(** What the page reports for a source once the fetch is over.  A query
    that succeeded: one record per document, in the order of the snapshot,
    no error, and the tab lists the records (the empty note when there are
    none).  A query that failed: the reason's message as the error, the
    data the page held before, and the error panel in the tab when the
    message is not empty. *)
Definition reports (st0 st : State) (src : Source)
    (r : Settled (list (list N * gmap string Value))) : Prop :=
  match r with
  | Fulfilled docs =>
      Forall2 is_record_of (data_of src st) docs /\
      error_of src st = None /\
      tabContent (data_of src st) (error_of src st) =
        match docs with
        | [] => EmptyMessage
        | _ => Items (data_of src st)
        end
  | Rejected reason =>
      error_of src st = Some (message reason) /\
      data_of src st = data_of src st0 /\
      (message reason <> [] ->
       tabContent (data_of src st) (error_of src st) = IndexErrorMessage)
  end.

(** The sources for which the page holds an error after the fetch. *)
Definition failed_sources (st : State) : list Source :=
  List.filter (fun src => bool_decide (is_Some (error_of src st)))
    [Doubts; Notes; Answers].

End Dashboard.

(* ===================================================================== *)
(** ** signup/page.tsx                                                      *)
(* ===================================================================== *)

Module Signup.

Record Values : Type :=
  { name : jsstring; email : jsstring; password : jsstring }.

Section Schema.
(** [z.string().email()]'s verdict on a string. *)
Variable email_check : jsstring -> bool.

(** [formSchema] *)
Definition formSchema (v : Values) : parsed Values :=
  match min 2 "name" "Name must be at least 2 characters." (name v) ++
        refine (email_check (email v)) "email" "Invalid email address." ++
        min 6 "password" "Password must be at least 6 characters." (password v)
  with
  | [] => Success v
  | issues => Failure issues
  end.

Record State : Type :=
  { form : Form Values; loading : bool; error : option string }.

#[global] Instance State_form : HasForm State Values :=
  {| getForm := form;
     setForm f s := {| form := f; loading := loading s; error := error s |};
     defaultValues := {| name := []; email := []; password := [] |} |}.

Definition setError (e : option string) : M State unit :=
  setState (fun s => {| form := form s; loading := loading s; error := e |}).
Definition setLoading (b : bool) : M State unit :=
  setState (fun s => {| form := form s; loading := b; error := error s |}).

(** What the authentication service answers to
    [createUserWithEmailAndPassword]. *)
Inductive AuthOutcome : Type :=
| Created (uid : jsstring)
| Refused (e : FirebaseError).

(** [await createUserWithEmailAndPassword(auth, email, password)] *)
Definition createUser (out : AuthOutcome) (email : jsstring)
  : M State (result jsstring) :=
  match out with
  | Created u =>
      on_world (fun w =>
        {| store := store w;
           accounts := <[u := {| acc_email := email; acc_displayName := None |}]>
                         (accounts w);
           calls := calls w; toasts := toasts w; routes := routes w |});;
      mret (Ok u)
  | Refused e => mret (Err e)
  end.

(** [await updateProfile(user, { displayName })] *)
Definition updateProfile (out : option FirebaseError) (u : jsstring)
    (displayName : jsstring) : M State (result unit) :=
  match out with
  | None =>
      on_world (fun w =>
        {| store := store w;
           accounts := alter (fun a => {| acc_email := acc_email a;
                                          acc_displayName := Some displayName |})
                             u (accounts w);
           calls := calls w; toasts := toasts w; routes := routes w |});;
      mret (Ok tt)
  | Some e => mret (Err e)
  end.

(** The [catch] of step 1. *)
Definition account_creation_failed (e : FirebaseError) : M State unit :=
  setError (Some (
    if bool_decide (code e = js "auth/email-already-in-use") then
      "Account Creation Failed: This email is already registered. Please try logging in instead."
    else if bool_decide (code e = js "auth/weak-password") then
      "Account Creation Failed: The password is too weak. Please use at least 6 characters."
    else
      "Account Creation Failed: An unknown error occurred during account creation."));;
  setLoading false.

Definition signup_incomplete : string :=
  "Signup Incomplete. Your account was created, but we could not save your profile. This is almost always a Firestore Security Rules issue. Please double-check your rules in the Firebase Console.".

(** The profile document of step 2. *)
Definition profile_doc (u : jsstring) (values : Values) : gmap string Value :=
  obj [ ("uid", VStr u);
        ("name", VStr (name values));
        ("email", VStr (email values));
        ("upvoteScore", VNum 0) ].

(** Step 2 with its [catch] and [finally]. *)
Definition saveProfile (db : bool) (net : Net) (u : jsstring) (values : Values)
  : M State unit :=
  (if negb db then setError (Some signup_incomplete)
   else
     r ← write net (SetDoc "users" u (profile_doc u values));
     match r with
     | Ok _ =>
         toast {| t_variant := Default; t_title := "Account Created!";
                  t_description := Some "Welcome to StudySync! Redirecting you to the dashboard..." |};;
         router_push "/dashboard"
     | Err _ => setError (Some signup_incomplete)
     end);;
  setLoading false.

(** [onSubmit].  [auth] and [db] tell whether the two services were
    initialised; [created], [renamed] and [net] are the outcomes of the
    three remote calls. *)
Definition onSubmit (auth db : bool) (created : AuthOutcome)
    (renamed : option FirebaseError) (net : Net) (values : Values)
  : M State unit :=
  setError None;;
  if negb (auth && db) then
    toast {| t_variant := Destructive; t_title := "Configuration Error";
             t_description := Some "Firebase is not configured. Please check the setup." |}
  else
    setLoading true;;
    r ← createUser created (email values);
    match r with
    | Err e => account_creation_failed e
    | Ok u =>
        r' ← updateProfile renamed u (name values);
        match r' with
        | Err e => account_creation_failed e
        | Ok _ => saveProfile db net u values
        end
    end.

(** The form's [onSubmit={form.handleSubmit(onSubmit)}]. *)
Definition submit (auth db : bool) (created : AuthOutcome)
    (renamed : option FirebaseError) (net : Net) : M State unit :=
  handleSubmit formSchema (onSubmit auth db created renamed net).

End Schema.

(** A rejected call, a new member and the page they fill, for the examples. *)
Definition network_failed : FirebaseError :=
  {| code := js "auth/network-request-failed";
     message := js "A network error has occurred." |}.

Definition new_member : Values :=
  {| name := js "Asha"; email := js "asha@example.com"; password := js "s3cret!" |}.

Definition signup_page : State :=
  {| form := {| values := new_member; fieldErrors := [] |};
     loading := false; error := None |}.

End Signup.

(* ===================================================================== *)
(** ** The operations of the application that write                         *)
(* ===================================================================== *)

Module App.

(** Every handler of the code base that calls the document store or the
    authentication service, with the arguments it runs under and the state
    of the component that owns it.  (The live queries and the dashboard
    only read.) *)
Inductive Action : Type :=
| PostDoubt (user : option User) (db : bool) (net : Net)
    (page : AskDoubt.State)
| ShareLink (url_check : jsstring -> bool) (user : option User) (db : bool)
    (net : Net) (page : ShareResource.State)
| SubmitAnswer (doubt : FeedTypes.Doubt) (user : option User) (db : bool)
    (net : Net) (page : DoubtDetailsDialog.State)
| MarkAsResolved (db : bool) (net : Net) (doubtId : jsstring)
    (page : DoubtsFeed.State)
| SignUp (email_check : jsstring -> bool) (auth db : bool)
    (created : Signup.AuthOutcome) (renamed : option FirebaseError)
    (net : Net) (page : Signup.State).

(** The world after an action. *)
Definition act (a : Action) (w : World) : World :=
  match a with
  | PostDoubt user db net page =>
      (run (AskDoubt.submit user db net) page w).2
  | ShareLink url_check user db net page =>
      (run (ShareResource.submit url_check user db net) page w).2
  | SubmitAnswer doubt user db net page =>
      (run (DoubtDetailsDialog.handleSubmit doubt user db net) page w).2
  | MarkAsResolved db net doubtId page =>
      (run (DoubtsFeed.handleMarkAsResolved db net doubtId) page w).2
  | SignUp email_check auth db created renamed net page =>
      (run (Signup.submit email_check auth db created renamed net) page w).2
  end.

(** The world after a sequence of actions, oldest first. *)
Definition perform (acts : list Action) (w : World) : World :=
  fold_left (fun w a => act a w) acts w.

(** The write calls that occur in the handlers. *)
Inductive app_call : Call -> Prop :=
| call_post u v : app_call (AddDoc "doubts" (AskDoubt.doubt_doc u v))
| call_share u v : app_call (AddDoc "notes" (ShareResource.note_doc u v))
| call_answer d u t :
    app_call (AddDoc "answers" (DoubtDetailsDialog.answer_doc d u t))
| call_resolve i :
    app_call (UpdateDoc "doubts" i (obj [("isResolved", VBool true)]))
| call_profile u v : app_call (SetDoc "users" u (Signup.profile_doc u v)).

(** The action is the resolve operation on the doubt [d]. *)
Definition resolves (a : Action) (d : jsstring) : Prop :=
  match a with
  | MarkAsResolved _ _ doubtId _ => doubtId = d
  | _ => False
  end.

(** A doubt is resolved in the store. *)
Definition resolved (w : World) (d : jsstring) : Prop :=
  field (store w) "doubts" d "isResolved" = Some (VBool true).

End App.

(* ===================================================================== *)
(** ** The live queries of the code base                                    *)
(* ===================================================================== *)

Module LiveQueries.

(** The three [onSnapshot] subscriptions: the answers of a doubt
    (AnswerList), the doubts feed (DoubtsFeed) and the resource library
    (NotesPage). *)
Inductive Subscription : Type := AnswersQuery | DoubtsQuery | NotesQuery.

(** The message the user is shown when the error callback of a freshly
    mounted subscription fires with [e]: the text of the alert, or the
    description of the toast. *)
Definition surfaced (s : Subscription) (e : FirebaseError) : option jsstring :=
  match s with
  | AnswersQuery =>
      match AnswerList.render (AnswerList.onError e AnswerList.init) with
      | AnswerList.ErrorAlert _ body => Some body
      | _ => None
      end
  | DoubtsQuery =>
      js <$> (last (toasts (run (DoubtsFeed.onError e) DoubtsFeed.init empty_world).2)
              ≫= t_description)
  | NotesQuery =>
      js <$> NotesPage.errorAlert
               (NotesPage.render (NotesPage.onError e NotesPage.init))
  end.

Definition is_error {T} (ev : SnapshotEvent T) : bool :=
  match ev with Error _ => true | Next _ => false end.

(** Two errors and an answer, for the examples. *)
Definition missing_index : FirebaseError :=
  {| code := js "failed-precondition";
     message := js "The query requires an index." |}.

Definition unavailable : FirebaseError :=
  {| code := js "unavailable";
     message := js "The service is currently unavailable." |}.

Definition first_answer : FeedTypes.Answer :=
  {| FeedTypes.a_id := js "A1"; FeedTypes.a_userId := js "U2";
     FeedTypes.a_userName := js "Ravi";
     FeedTypes.a_text := js "It's a self-balancing BST.";
     FeedTypes.a_createdAt := Some 2%N |}.

End LiveQueries.

(* ===================================================================== *)
(** ** lib/firebase.ts                                                      *)
(* ===================================================================== *)

Module FirebaseInit.

(** The two environment variables the module tests ([undefined] when the
    variable is not set). *)
Record Config : Type :=
  { apiKey : option jsstring; projectId : option jsstring }.

(** [isFirebaseConfigured = firebaseConfig.apiKey && firebaseConfig.projectId],
    as the conditionals read it. *)
Definition isFirebaseConfigured (c : Config) : bool :=
  truthy_opt (apiKey c) && truthy_opt (projectId c).

(** Whether each exported service is an instance ([true]) or [null]. *)
Record Services : Type :=
  { app : bool; auth : bool; db : bool; storage : bool }.

Definition services (c : Config) : Services :=
  let app := isFirebaseConfigured c in
  {| app := app;
     auth := if app then true else false;
     db := if app then true else false;
     storage := if app then true else false |}.

End FirebaseInit.

(* ===================================================================== *)
(** ** context/auth-context.tsx and the pages' sign-in guards               *)
(* ===================================================================== *)

Module AuthProvider.

Record State : Type := { user : option User; loading : bool }.

Definition init : State := {| user := None; loading := true |}.

(** The effect's early exit when [auth] is null. *)
Definition mount_without_auth (st : State) : State :=
  {| user := user st; loading := false |}.

(** The callback of [onAuthStateChanged]. *)
Definition onAuthStateChanged (u : option User) (st : State) : State :=
  {| user := u; loading := false |}.

(** The state once the provider is mounted and the listener has been
    called with [evs], oldest first. *)
Definition provide (auth : bool) (evs : list (option User)) : State :=
  if auth then fold_left (fun s u => onAuthStateChanged u s) evs init
  else mount_without_auth init.

End AuthProvider.

Module PageGuard.

(** What the top of a guarded page renders. *)
Inductive Gate : Type := Loader | Nothing | Content.

(** The opening of [AskDoubtPage] and [ShareResourcePage]: a loader while
    the auth state is loading; for a visitor, the redirect and the toast,
    and [null]; the page otherwise. *)
Definition guard {P} (description : string) (authLoading : bool)
    (user : option User) : M P Gate :=
  if authLoading then mret Loader
  else match user with
       | None =>
           router_push "/login";;
           toast {| t_variant := Destructive; t_title := "Authentication Required";
                    t_description := Some description |};;
           mret Nothing
       | Some _ => mret Content
       end.

Definition askDoubtPage {P} := @guard P "You need to be logged in to ask a doubt.".
Definition shareResourcePage {P} :=
  @guard P "You need to be logged in to share a resource.".

(** What [DashboardPage] returns. *)
Definition dashboardPage (authLoading : bool) (user : option User)
    (st : Dashboard.State) : Gate :=
  if authLoading || Dashboard.loading st then Loader
  else match user with
       | None => Nothing
       | Some _ => Content
       end.

End PageGuard.

(* ===================================================================== *)
(** ** The login page                                                       *)
(* ===================================================================== *)

Module Login.

Record Values : Type := { email : jsstring; password : jsstring }.

Section Schema.
(** [z.string().email()]'s verdict on a string. *)
Variable email_check : jsstring -> bool.

(** [formSchema] *)
Definition formSchema (v : Values) : parsed Values :=
  match refine (email_check (email v)) "email" "Invalid email address." ++
        min 6 "password" "Password must be at least 6 characters." (password v)
  with
  | [] => Success v
  | issues => Failure issues
  end.

Record State : Type := { form : Form Values; loading : bool }.

#[global] Instance State_form : HasForm State Values :=
  {| getForm := form;
     setForm f s := {| form := f; loading := loading s |};
     defaultValues := {| email := []; password := [] |} |}.

Definition setLoading (b : bool) : M State unit :=
  setState (fun s => {| form := form s; loading := b |}).

Definition configuration_error : Toast :=
  {| t_variant := Destructive; t_title := "Configuration Error";
     t_description := Some "Firebase is not configured. Please check the setup." |}.

(** [onSubmit].  [auth] tells whether the service was initialised (the
    page's [isFirebaseConfigured] is [!!auth]); [signedIn] is what
    [signInWithEmailAndPassword] settles to.  The session itself lives in
    the SDK and reaches the pages through [AuthProvider]. *)
Definition onSubmit (auth : bool) (signedIn : option FirebaseError)
    (values : Values) : M State unit :=
  if negb auth then toast configuration_error
  else
    setLoading true;;
    (if negb auth then
       toast configuration_error;;
       setLoading false
     else
       match signedIn with
       | None =>
           toast {| t_variant := Default; t_title := "Login Successful";
                    t_description := Some "Welcome back!" |};;
           router_push "/dashboard"
       | Some _ =>
           toast {| t_variant := Destructive; t_title := "Login Failed";
                    t_description := Some "Please check your credentials and try again." |}
       end);;
    setLoading false.

(** The form's [onSubmit={form.handleSubmit(onSubmit)}]. *)
Definition submit (auth : bool) (signedIn : option FirebaseError)
  : M State unit :=
  handleSubmit formSchema (onSubmit auth signedIn).

End Schema.

End Login.

(* ===================================================================== *)
(** ** components/navbar.tsx                                                *)
(* ===================================================================== *)

Module Navbar.

Record NavLink : Type := { href : string; label : string; auth : bool }.

(** [navLinks] *)
Definition navLinks : list NavLink :=
  [ {| href := "/"; label := "Home"; auth := false |};
    {| href := "/ask-doubt"; label := "Ask Doubt"; auth := false |};
    {| href := "/upload-notes"; label := "Share Resource"; auth := false |};
    {| href := "/doubts"; label := "Community Doubts"; auth := false |};
    {| href := "/notes"; label := "Resource Library"; auth := false |};
    {| href := "/dashboard"; label := "Dashboard"; auth := true |} ].

(** [(!link.auth || (link.auth && user))] *)
Definition shown (user : option User) (link : NavLink) : bool :=
  negb (auth link) || (auth link && bool_decide (is_Some user)).

(** A rendered link and whether it carries the style of the current page
    ([pathname === href]). *)
Record Rendered : Type := { r_link : NavLink; r_active : bool }.

Definition nav (pathname : string) (user : option User) : list Rendered :=
  map (fun l => {| r_link := l; r_active := bool_decide (pathname = href l) |})
      (List.filter (shown user) navLinks).

(** The buttons next to the links. *)
Inductive AuthButtons : Type := Spinner | Logout | LoginAndSignUp.

Definition authButtons (loading : bool) (user : option User) : AuthButtons :=
  if loading then Spinner
  else match user with
       | Some _ => Logout
       | None => LoginAndSignUp
       end.

Record State : Type := { isMobileMenuOpen : bool }.

(** The [onClick] of a link. *)
Definition onLinkClick : M State unit :=
  setState (fun _ => {| isMobileMenuOpen := false |}).

(** [handleLogout]; [signedOut] is what [signOut(auth)] settles to. *)
Definition handleLogout (signedOut : option FirebaseError) : M State unit :=
  match signedOut with
  | None =>
      toast {| t_variant := Default; t_title := "Logged Out";
               t_description := Some "You have been successfully logged out." |};;
      router_push "/login"
  | Some _ =>
      toast {| t_variant := Destructive; t_title := "Logout Failed";
               t_description := Some "There was an error logging you out. Please try again." |}
  end.

End Navbar.

(* ===================================================================== *)
(** ** notes/ResourceCard.tsx                                               *)
(* ===================================================================== *)

Module ResourceCard.
Import NotesPage.

(** [s] without the literal prefix [p], when it starts with it. *)
Fixpoint strip_prefix (p s : jsstring) : option jsstring :=
  match p, s with
  | [], _ => Some s
  | x :: p', c :: s' => if (x =? c)%N then strip_prefix p' s' else None
  | _ :: _, [] => None
  end.

(** [\w] *)
Definition is_word (c : char) : bool :=
  (((65 <=? c) && (c <=? 90)) || ((97 <=? c) && (c <=? 122)) ||
   ((48 <=? c) && (c <=? 57)) || (c =? 95))%N.

(** [youtu.be\/]: the dot is not escaped and stands for any character but a
    line terminator. *)
Definition youtu_be (s : jsstring) : option jsstring :=
  match strip_prefix (js "youtu") s with
  | Some (c :: r) =>
      if is_line_terminator c then None else strip_prefix (js "be/") r
  | _ => None
  end.

(** [u\/\w\/] *)
Definition u_word (s : jsstring) : option jsstring :=
  match strip_prefix (js "u/") s with
  | Some (c :: r) => if is_word c then strip_prefix (js "/") r else None
  | _ => None
  end.

Definition or_else {A} (a b : option A) : option A :=
  match a with Some _ => a | None => b end.

(** Group 1 of the pattern,
    [(youtu.be\/|v\/|u\/\w\/|embed\/|watch\?v=|&v=|shorts\/)], tried at the
    start of [s]: what follows it, if one alternative matches. *)
Definition marker (s : jsstring) : option jsstring :=
  or_else (youtu_be s)
  (or_else (strip_prefix (js "v/") s)
  (or_else (u_word s)
  (or_else (strip_prefix (js "embed/") s)
  (or_else (strip_prefix (js "watch?v=") s)
  (or_else (strip_prefix (js "&v=") s)
           (strip_prefix (js "shorts/") s)))))).

(** [^.*] followed by group 1: the greedy [.*] gives up characters from the
    right, so the match found is the one with the longest prefix; the prefix
    cannot run over a line terminator. *)
Fixpoint after_last_marker (s : jsstring) : option jsstring :=
  match s with
  | [] => marker []
  | c :: s' =>
      if is_line_terminator c then marker s
      else or_else (after_last_marker s') (marker s)
  end.

(** Group 2, the class [^#&?] repeated greedily: the longest run free of
    [#], [&] and [?]. *)
Fixpoint id_run (s : jsstring) : jsstring :=
  match s with
  | c :: s' =>
      if ((c =? 35) || (c =? 38) || (c =? 63))%N then [] else c :: id_run s'
  | [] => []
  end.

(** [getYouTubeVideoId]: the pattern is [^.*], group 1, group 2 and a
    final [.*] with no end anchor, so whatever follows group 2 is matched
    or left over; the id is group 2 when it has 11 characters. *)
Definition getYouTubeVideoId (url : jsstring) : option jsstring :=
  match url with
  | [] => None
  | _ =>
      match after_last_marker url with
      | Some rest =>
          if length (id_run rest) =? 11 then Some (id_run rest) else None
      | None => None
      end
  end.

(** The footer of the card. *)
Inductive Footer : Type :=
| ViewOnGoogleDrive (url : jsstring)
| CouldNotEmbed
| WatchOnYouTube (url : jsstring).

(** The body of the card: the embedded player or a text. *)
Inductive Body : Type :=
| Player (videoId : jsstring)
| Text (t : jsstring).

Record View : Type := { body : Body; footers : list Footer }.

(** [ResourceCard] *)
Definition render (resource : Resource) : View :=
  let videoId :=
    match resourceType resource with
    | Youtube => getYouTubeVideoId (resourceUrl resource)
    | Drive => None
    end in
  {| body :=
       match videoId with
       | Some (c :: v) => Player (c :: v)
       | _ =>
           Text (match description resource with
                 | Some (c :: d) => c :: d
                 | _ => js "No description provided."
                 end)
       end;
     footers :=
       (match resourceType resource with
        | Drive => [ViewOnGoogleDrive (resourceUrl resource)]
        | Youtube => []
        end) ++
       (match resourceType resource, videoId with
        | Youtube, Some (_ :: _) => []
        | Youtube, _ => [CouldNotEmbed]
        | Drive, _ => []
        end) ++
       (match resourceType resource, videoId with
        | Youtube, Some (_ :: _) => [WatchOnYouTube (resourceUrl resource)]
        | _, _ => []
        end) |}.

End ResourceCard.

(* ===================================================================== *)
(** ** Who acts, and with which services                                    *)
(* ===================================================================== *)

Module Actors.
Import App.

(** The signed-in user an action of a user-gated handler runs for. *)
Definition actor (a : Action) : option User :=
  match a with
  | PostDoubt user _ _ _ => user
  | ShareLink _ user _ _ _ => user
  | SubmitAnswer _ user _ _ _ => user
  | MarkAsResolved _ _ _ _ => None
  | SignUp _ _ _ _ _ _ _ => None
  end.

(** The handler is one of the three that test [user]. *)
Definition user_gated (a : Action) : bool :=
  match a with
  | PostDoubt _ _ _ _ | ShareLink _ _ _ _ _ | SubmitAnswer _ _ _ _ _ => true
  | MarkAsResolved _ _ _ _ | SignUp _ _ _ _ _ _ _ => false
  end.

(** The action runs with the services that lib/firebase.ts exports. *)
Definition uses (sv : FirebaseInit.Services) (a : Action) : Prop :=
  match a with
  | PostDoubt _ db _ _ => db = FirebaseInit.db sv
  | ShareLink _ _ db _ _ => db = FirebaseInit.db sv
  | SubmitAnswer _ _ db _ _ => db = FirebaseInit.db sv
  | MarkAsResolved db _ _ _ => db = FirebaseInit.db sv
  | SignUp _ auth db _ _ _ _ =>
      auth = FirebaseInit.auth sv /\ db = FirebaseInit.db sv
  end.

(** The call of [handleMarkAsResolved]. *)
Definition resolve_call (i : jsstring) : Call :=
  UpdateDoc "doubts" i (obj [("isResolved", VBool true)]).

End Actors.

(* ===================================================================== *)
(** * Properties                                                           *)
(* ===================================================================== *)

(** Unfolding of the monadic plumbing, leaving [exec] and the page
    definitions in place. *)
Ltac unfold_m :=
  unfold run, handleSubmit, form_reset, skip, write, toast, router_push,
    on_world, setState, getState, mbind, M_bind, mret, M_ret in *.

(* --------------------------------------------------------------------- *)
(** ** The matcher decides the language of a pattern                        *)
(* --------------------------------------------------------------------- *)

Section RegexCorrectness.
Import Regex.

Lemma nullable_lang r : nullable r = true <-> lang r [].
Proof.
  induction r as [| |l| |r1 IH1 r2 IH2|r1 IH1 r2 IH2|r1 IH1]; simpl.
  - split; [discriminate | tauto].
  - tauto.
  - destruct l; split; congruence.
  - split; [discriminate | intros (c & Hc & _); discriminate].
  - rewrite andb_true_iff, IH1, IH2. split.
    + intros [H1 H2]. exists [], []. auto.
    + intros (s1 & s2 & Hs & H1 & H2). symmetry in Hs.
      apply app_eq_nil in Hs as [-> ->]. auto.
  - rewrite orb_true_iff, IH1, IH2. tauto.
  - split; [constructor | reflexivity].
Qed.

Lemma star_cons_inv (P : jsstring -> Prop) c s :
  star P (c :: s) ->
  exists s1 s2, s = s1 ++ s2 /\ P (c :: s1) /\ star P s2.
Proof.
  intros H. remember (c :: s) as t eqn:Ht.
  induction H as [|s1 s2 H1 H2 IH]; [discriminate|].
  destruct s1 as [|c1 s1]; simpl in Ht.
  - auto.
  - injection Ht as -> <-. eauto.
Qed.

Lemma deriv_lang c r : forall s, lang (deriv c r) s <-> lang r (c :: s).
Proof.
  induction r as [| |l| |r1 IH1 r2 IH2|r1 IH1 r2 IH2|r1 IH1]; intros s; simpl.
  - tauto.
  - split; [tauto | discriminate].
  - destruct l as [|x l]; simpl; [split; [tauto | discriminate]|].
    destruct (N.eqb_spec c x) as [->|Hne]; simpl; split; try tauto; congruence.
  - destruct (is_line_terminator c) eqn:Hc; simpl; split.
    + tauto.
    + intros (c' & Hs & Hc'). congruence.
    + intros ->. eauto.
    + intros (c' & Hs & Hc'). congruence.
  - destruct (nullable r1) eqn:Hn; simpl; split.
    + intros [(s1 & s2 & -> & H1 & H2) | H2].
      * exists (c :: s1), s2. rewrite <- IH1. auto.
      * exists [], (c :: s). rewrite <- IH2, <- nullable_lang. auto.
    + intros (s1 & s2 & Hs & H1 & H2). destruct s1 as [|c1 s1]; simpl in Hs.
      * right. apply IH2. congruence.
      * left. injection Hs as <- ->. exists s1, s2. rewrite IH1. auto.
    + intros (s1 & s2 & -> & H1 & H2).
      exists (c :: s1), s2. rewrite <- IH1. auto.
    + intros (s1 & s2 & Hs & H1 & H2). destruct s1 as [|c1 s1]; simpl in Hs.
      * apply nullable_lang in H1. congruence.
      * injection Hs as <- ->. exists s1, s2. rewrite IH1. auto.
  - rewrite IH1, IH2. tauto.
  - split.
    + intros (s1 & s2 & -> & H1 & H2). apply IH1 in H1.
      change (c :: s1 ++ s2) with ((c :: s1) ++ s2). by constructor.
    + intros H. apply star_cons_inv in H as (s1 & s2 & -> & H1 & H2).
      exists s1, s2. rewrite IH1. auto.
Qed.

Theorem test_lang r s : test r s = true <-> lang r s.
Proof.
  revert r. induction s as [|c s IH]; intros r; simpl.
  - apply nullable_lang.
  - rewrite IH. apply deriv_lang.
Qed.

End RegexCorrectness.

(* --------------------------------------------------------------------- *)
(** ** The dashboard's parallel fetch (C1)                                  *)
(* --------------------------------------------------------------------- *)

Section DashboardFetch.
Import Dashboard.

(** While a query is pending the code after the [await] has not run. *)
Lemma fetchData_waits st w qd qn qa :
  qd = None \/ qn = None \/ qa = None ->
  run (fetchData true qd qn qa) st w =
    ({| myDoubts := myDoubts st; myNotes := myNotes st; myAnswers := myAnswers st;
        doubtsError := None; notesError := None; answersError := None;
        loading := true |}, w).
Proof.
  intros H. unfold fetchData.
  destruct qd as [rd|], qn as [rn|], qa as [ra|];
    try (exfalso; clear -H; intuition discriminate);
    reflexivity.
Qed.

(** The state the code after the [await] leaves: each source's data and
    error depend on that source's outcome alone. *)
Lemma fetchData_settled st w rd rn ra :
  run (fetchData true (Some rd) (Some rn) (Some ra)) st w =
    ({| myDoubts := match rd with
                    | Fulfilled v => map with_id v | Rejected _ => myDoubts st end;
        myNotes := match rn with
                   | Fulfilled v => map with_id v | Rejected _ => myNotes st end;
        myAnswers := match ra with
                     | Fulfilled v => map with_id v | Rejected _ => myAnswers st end;
        doubtsError := match rd with
                       | Fulfilled _ => None | Rejected e => Some (message e) end;
        notesError := match rn with
                      | Fulfilled _ => None | Rejected e => Some (message e) end;
        answersError := match ra with
                        | Fulfilled _ => None | Rejected e => Some (message e) end;
        loading := false |}, w).
Proof.
  destruct rd, rn, ra; reflexivity.
Qed.

Lemma fetchData_world st w db qd qn qa :
  (run (fetchData db qd qn qa) st w).2 = w.
Proof.
  unfold fetchData.
  destruct db, qd as [[]|], qn as [[]|], qa as [[]|]; reflexivity.
Qed.

(** The fields of a record built by [{ id: doc.id, ...doc.data() }]. *)
Lemma with_id_lookup (d : list N * gmap string Value) : is_record_of (with_id d) d.
Proof.
  intros k. unfold with_id. rewrite lookup_union.
  destruct (decide (k = "id")) as [->|Hne].
  - rewrite lookup_singleton_eq. by destruct (d.2 !! "id").
  - rewrite lookup_singleton_ne by done. by destruct (d.2 !! k).
Qed.

Lemma records_of_snapshot (docs : list (list N * gmap string Value)) :
  Forall2 is_record_of (map with_id docs) docs.
Proof.
  induction docs as [|d docs IH]; simpl; constructor;
    [apply with_id_lookup | exact IH].
Qed.

(** The records of a list of documents are determined by the documents. *)
Lemma records_unique (l : list (gmap string Value))
    (docs : list (list N * gmap string Value)) :
  Forall2 is_record_of l docs -> l = map with_id docs.
Proof.
  induction 1 as [|r d l docs Hr _ IH]; simpl; [reflexivity|].
  f_equal; [|exact IH].
  apply map_eq. intros k. rewrite (Hr k). symmetry. apply with_id_lookup.
Qed.

(** C1.  The dashboard's fetch of the three one-shot queries (my doubts, my
    notes, my answers) runs the code after the [await] only when all three
    promises have settled; and when exactly one of the three queries fails,
    the two that succeeded are each reported with their own records (one
    per document, with the document's fields and its id) and no error, the
    failed one alone is reported as an error (its message), and its failure
    leaves the other sources' data in place. *)
Theorem dashboard_fetch_independent_degradation
    (st : State) (w : World)
    (rd rn ra : Settled (list (list N * gmap string Value))) :
  length (List.filter is_rejected [rd; rn; ra]) = 1 ->
  (forall qd qn qa, qd = None \/ qn = None \/ qa = None ->
     let st1 := (run (fetchData true qd qn qa) st w).1 in
     loading st1 = true /\
     forall src, data_of src st1 = data_of src st /\ error_of src st1 = None) /\
  let st' := (run (fetchData true (Some rd) (Some rn) (Some ra)) st w).1 in
  loading st' = false /\
  reports st st' Doubts rd /\
  reports st st' Notes rn /\
  reports st st' Answers ra /\
  length (failed_sources st') = 1 /\
  (forall src, tabContent (data_of src st') (error_of src st') = IndexErrorMessage ->
     In src (failed_sources st')).
Proof.
  intros H. split.
  - intros qd qn qa Hq st1. subst st1.
    rewrite (fetchData_waits st w qd qn qa Hq). simpl.
    split; [reflexivity | intros []; auto].
  - rewrite fetchData_settled.
    assert (Hok : forall docs : list (list N * gmap string Value),
              Forall2 is_record_of (map with_id docs) docs /\
              @None jsstring = None /\
              tabContent (map with_id docs) None =
                match docs with
                | [] => EmptyMessage
                | _ => Items (map with_id docs)
                end).
    { intros docs. split; [apply records_of_snapshot|].
      split; [reflexivity | by destruct docs]. }
    assert (Hko : forall (e : FirebaseError) (old : list (gmap string Value)),
              Some (message e) = Some (message e) /\ old = old /\
              (message e <> [] ->
               tabContent old (Some (message e)) = IndexErrorMessage)).
    { intros e old. split; [reflexivity|]. split; [reflexivity|].
      unfold tabContent. simpl. by destruct (message e). }
    destruct rd as [dd|ed], rn as [dn|en], ra as [da|ea];
      simpl in H; try discriminate H; cbv zeta; simpl;
      (split; [reflexivity|]);
      do 3 (split; [first [apply Hok | apply Hko]|]);
      (split; [reflexivity|]);
      intros [] Hsrc; unfold tabContent in Hsrc; simpl in *;
      repeat match goal with
             | H : context [match ?l with [] => _ | _ => _ end] |- _ =>
                 destruct l; simpl in H
             end;
      try discriminate; auto.
Qed.

(** The notes query lacks its index; doubts and answers load.  The doubts
    tab lists the one record of the user's doubt, with the document's two
    fields and its id; the notes tab shows the error panel; the answers tab
    shows the empty note. *)
Lemma dashboard_fetch_independent_degradation_witness :
  let rd := Fulfilled
              [(js "D1", obj [("description", VStr (js "What is a red-black tree?"));
                              ("isResolved", VBool false)])] in
  let rn := Rejected {| code := js "failed-precondition";
                        message := js "The query requires an index." |} in
  let ra := Fulfilled [] in
  let st' := (run (fetchData true (Some rd) (Some rn) (Some ra)) init
                {| store := ∅; accounts := ∅; calls := []; toasts := []; routes := [] |}).1 in
  let record := obj [("id", VStr (js "D1"));
                     ("description", VStr (js "What is a red-black tree?"));
                     ("isResolved", VBool false)] in
  myDoubts st' = [record] /\
  doubtsError st' = None /\
  tabContent (myDoubts st') (doubtsError st') = Items [record] /\
  myNotes st' = [] /\
  notesError st' = Some (js "The query requires an index.") /\
  tabContent (myNotes st') (notesError st') = IndexErrorMessage /\
  myAnswers st' = [] /\
  answersError st' = None /\
  tabContent (myAnswers st') (answersError st') = EmptyMessage /\
  failed_sources st' = [Notes].
Proof.
  intros rd rn ra.
  destruct (dashboard_fetch_independent_degradation init
              {| store := ∅; accounts := ∅; calls := []; toasts := []; routes := [] |}
              rd rn ra eq_refl)
    as (_ & _ & (Hd & Hde & Hdt) & (Hne & Hn & Hnt) & (Ha & Hae & Hat) & Hlen & Hf).
  cbv zeta. cbn [data_of error_of] in *.
  apply records_unique in Hd. apply records_unique in Ha.
  assert (Hmsg : message {| code := js "failed-precondition";
                            message := js "The query requires an index." |} <> [])
    by discriminate.
  specialize (Hnt Hmsg).
  assert (Hin := Hf Notes Hnt).
  split_and!.
  - rewrite Hd. reflexivity.
  - exact Hde.
  - rewrite Hdt, Hd. reflexivity.
  - exact Hn.
  - exact Hne.
  - exact Hnt.
  - exact Ha.
  - exact Hae.
  - rewrite Hat. reflexivity.
  - revert Hlen Hin.
    generalize (failed_sources
      (run (fetchData true (Some rd) (Some rn) (Some ra)) init
         {| store := ∅; accounts := ∅; calls := []; toasts := []; routes := [] |}).1).
    intros [|s [|s' l]] Hlen Hin; simpl in *; try discriminate.
    destruct Hin as [->|[]]. reflexivity.
Defined.

End DashboardFetch.

(* --------------------------------------------------------------------- *)
(** ** The share-resource schema (C2)                                       *)
(* --------------------------------------------------------------------- *)

Section ShareResourceSchema.
Import Regex ShareResource.

(** Splits a hypothesis [lang r u], for a pattern [r] without a star at its
    head, into the pieces of [u]. *)
Ltac split_lang :=
  repeat match goal with
         | H : _ /\ _ |- _ => destruct H
         | H : exists _, _ |- _ => destruct H
         | H : _ \/ _ |- _ => destruct H
         | H : False |- _ => destruct H
         end.

(** No string matches both patterns: after the optional scheme the YouTube
    pattern goes on with [w], [y], [m], [g] or [s], the Drive pattern
    with [d]. *)
Lemma youtube_drive_disjoint (u : jsstring) :
  test youtube_re u = true -> test drive_re u = true -> False.
Proof.
  rewrite !test_lang. intros Hy Hd.
  unfold drive_re, scheme, Opt, Plus in Hd. simpl in Hd.
  unfold youtube_re, scheme, youtube_hosts, Opt, Plus in Hy. simpl in Hy.
  split_lang; subst; simpl in *; discriminate.
Qed.

Lemma url_matches_type_exclusive ty ty' (u : jsstring) :
  url_matches_type ty u = true -> url_matches_type ty' u = true -> ty = ty'.
Proof.
  destruct ty, ty'; simpl; intros H1 H2; try reflexivity;
    exfalso; eauto using youtube_drive_disjoint.
Qed.

Variable url_check : jsstring -> bool.

(** The schema accepts exactly when every field rule and the refinement
    hold. *)
Lemma formSchema_accepts (v : Raw) :
  accepts (formSchema url_check v) = true <->
  5 <= length (r_topic v) /\
  1 <= length (r_subject v) /\
  url_check (r_url v) = true /\
  exists ty, r_resourceType v = Some ty /\ url_matches_type ty (r_url v) = true.
Proof.
  unfold formSchema, field_issues, min, refine.
  destruct (Nat.ltb_spec (length (r_topic v)) 5),
           (Nat.ltb_spec (length (r_subject v)) 1),
           (url_check (r_url v)) eqn:Hu,
           (r_resourceType v) as [ty|];
    simpl; try destruct (url_matches_type ty (r_url v)) eqn:Hm; simpl;
    split; try discriminate;
    try (intros (? & ? & ? & ty' & [=] & ?); subst; try lia; congruence);
    intros _; repeat split; eauto.
Qed.

(** The parsed data are the raw values. *)
Lemma formSchema_success (v : Raw) (d : Values) :
  formSchema url_check v = Success d ->
  topic d = r_topic v /\ subject d = r_subject v /\
  description d = r_description v /\
  r_resourceType v = Some (resourceType d) /\ url d = r_url v.
Proof.
  unfold formSchema. destruct (r_resourceType v) as [ty|]; [|discriminate].
  destruct (_ ++ _); [|discriminate]. intros [= <-]. simpl. auto.
Qed.

(** A failed parse carries at least one issue. *)
Lemma formSchema_failure (v : Raw) (issues : list Issue) :
  formSchema url_check v = Failure issues -> issues <> [].
Proof.
  unfold formSchema, field_issues.
  destruct (r_resourceType v) as [ty|].
  - destruct (_ ++ _) eqn:E; [discriminate|]. intros [= <-]. discriminate.
  - intros [= <-]. destruct (min 5 _ _ _), (min 1 _ _ _); discriminate.
Qed.

End ShareResourceSchema.

Section ShareResourceRule.
Import Regex ShareResource.

(** Whatever URL check stands in for [z.string().url()], as long as it
    accepts no string without a scheme, the schema refuses
    [schemeless_youtube] although the YouTube pattern matches its URL. *)
Lemma schemeless_youtube_refused (url_check : jsstring -> bool) :
  (forall s, url_check s = true -> has_scheme s = true) ->
  formSchema url_check schemeless_youtube =
    Failure [ {| path := "url"; msg := "Please enter a valid URL." |} ].
Proof.
  intros Hsound. unfold formSchema, field_issues. simpl.
  destruct (url_check _) eqn:Hu; [|reflexivity].
  apply Hsound in Hu. vm_compute in Hu. discriminate.
Qed.

(** C2, as stated, fails: the URL of [schemeless_youtube] matches the
    YouTube pattern, YouTube is the selected type and the other fields are
    valid, and the schema rejects the input (with the message of the
    generic URL rule): the pattern makes the scheme optional, the generic
    rule [z.string().url()] does not. *)
Lemma share_resource_matching_url_rejected :
  test youtube_re (r_url schemeless_youtube) = true /\
  r_resourceType schemeless_youtube = Some Youtube /\
  5 <= length (r_topic schemeless_youtube) /\
  1 <= length (r_subject schemeless_youtube) /\
  accepts (formSchema has_scheme schemeless_youtube) = false.
Proof.
  repeat split; try (vm_compute; reflexivity); simpl; lia.
Qed.

(** The pair rule is not the conjunction of a rule on the type and a rule
    on the URL. *)
Lemma url_rule_not_independent :
  ~ exists (f : ResourceType -> bool) (g : jsstring -> bool),
      forall ty u, url_matches_type ty u = f ty && g u.
Proof.
  intros (f & g & H).
  pose proof (H Youtube (js "https://youtu.be/dQw4w9WgXcQ")) as Hy.
  pose proof (H Drive (js "https://drive.google.com/file/d/1")) as Hd.
  pose proof (H Youtube (js "https://drive.google.com/file/d/1")) as Hyd.
  vm_compute in Hy, Hd, Hyd.
  symmetry in Hy, Hd. apply andb_true_iff in Hy as [Hf _], Hd as [_ Hg].
  rewrite Hf, Hg in Hyd. discriminate.
Qed.

(** C2 (amended).  In the share-resource schema, for any generic URL check:
    an input whose URL matches the YouTube pattern is rejected when the
    type is Drive; one whose URL matches the Drive pattern is rejected when
    the type is YouTube; an input is accepted when its URL matches the
    pattern of the co-selected type and also passes the generic URL check,
    the topic has at least 5 and the subject at least 1 characters; and the
    rule on the pair (type, URL) is not a conjunction of a rule on the type
    and a rule on the URL. *)
Theorem share_resource_url_rule (url_check : jsstring -> bool) (v : Raw) :
  (test youtube_re (r_url v) = true -> r_resourceType v = Some Drive ->
     accepts (formSchema url_check v) = false) /\
  (test drive_re (r_url v) = true -> r_resourceType v = Some Youtube ->
     accepts (formSchema url_check v) = false) /\
  (forall ty, r_resourceType v = Some ty ->
     url_matches_type ty (r_url v) = true ->
     url_check (r_url v) = true ->
     5 <= length (r_topic v) -> 1 <= length (r_subject v) ->
     accepts (formSchema url_check v) = true) /\
  (~ exists (f : ResourceType -> bool) (g : jsstring -> bool),
       forall ty u, url_matches_type ty u = f ty && g u).
Proof.
  split; [|split; [|split]].
  - intros Hy Hty. apply not_true_is_false. intros Ha.
    apply formSchema_accepts in Ha as (_ & _ & _ & ty & Hty' & Hm).
    rewrite Hty in Hty'. injection Hty' as <-. simpl in Hm.
    eapply youtube_drive_disjoint; eassumption.
  - intros Hd Hty. apply not_true_is_false. intros Ha.
    apply formSchema_accepts in Ha as (_ & _ & _ & ty & Hty' & Hm).
    rewrite Hty in Hty'. injection Hty' as <-. simpl in Hm.
    eapply youtube_drive_disjoint; eassumption.
  - intros ty Hty Hm Hu Ht Hs. apply formSchema_accepts. eauto 10.
  - exact url_rule_not_independent.
Qed.

(** A YouTube link filed as Drive is rejected, a Drive link filed as
    YouTube is rejected, and the YouTube link filed as YouTube is
    accepted. *)
Lemma share_resource_url_rule_witness :
  let yt := js "https://www.youtube.com/watch?v=dQw4w9WgXcQ" in
  let dr := js "https://drive.google.com/file/d/1" in
  let input ty u := {| r_topic := js "Quick Sort Algorithm Explained";
                       r_subject := js "DSA"; r_description := Some [];
                       r_resourceType := Some ty; r_url := u |} in
  accepts (formSchema has_scheme (input Drive yt)) = false /\
  accepts (formSchema has_scheme (input Youtube dr)) = false /\
  accepts (formSchema has_scheme (input Youtube yt)) = true.
Proof.
  intros yt dr input. split; [|split].
  - destruct (share_resource_url_rule has_scheme (input Drive yt)) as (H & _).
    apply H; vm_compute; reflexivity.
  - destruct (share_resource_url_rule has_scheme (input Youtube dr)) as (_ & H & _).
    apply H; vm_compute; reflexivity.
  - destruct (share_resource_url_rule has_scheme (input Youtube yt)) as (_ & _ & H & _).
    apply (H Youtube); try (vm_compute; reflexivity); simpl; lia.
Defined.

End ShareResourceRule.

(* --------------------------------------------------------------------- *)
(** ** Validation gates the write (C3)                                      *)
(* --------------------------------------------------------------------- *)

Section ValidationGate.

(** The ask-doubt schema returns the values it was given. *)
Lemma ask_formSchema_success v d :
  AskDoubt.formSchema v = Success d -> d = v.
Proof.
  unfold AskDoubt.formSchema. destruct (_ ++ _); [|discriminate].
  by intros [= <-].
Qed.

Lemma ask_formSchema_failure v issues :
  AskDoubt.formSchema v = Failure issues -> issues <> [].
Proof.
  unfold AskDoubt.formSchema. destruct (_ ++ _) eqn:E; [discriminate|].
  intros [= <-]. discriminate.
Qed.

(** On a failed parse, [handleSubmit] records the issues and does nothing
    else. *)
Lemma ask_submit_invalid user db net st w issues :
  AskDoubt.formSchema (values (AskDoubt.form st)) = Failure issues ->
  run (AskDoubt.submit user db net) st w =
    ({| AskDoubt.form := {| values := values (AskDoubt.form st);
                            fieldErrors := issues |};
        AskDoubt.isSubmitting := AskDoubt.isSubmitting st;
        AskDoubt.error := AskDoubt.error st |}, w).
Proof.
  intros H. unfold AskDoubt.submit. unfold_m. simpl. rewrite H. reflexivity.
Qed.

Lemma share_submit_invalid url_check user db net st w issues :
  ShareResource.formSchema url_check (values (ShareResource.form st)) = Failure issues ->
  run (ShareResource.submit url_check user db net) st w =
    ({| ShareResource.form := {| values := values (ShareResource.form st);
                                 fieldErrors := issues |};
        ShareResource.isSubmitting := ShareResource.isSubmitting st;
        ShareResource.error := ShareResource.error st |}, w).
Proof.
  intros H. unfold ShareResource.submit. unfold_m. simpl. rewrite H. reflexivity.
Qed.

(** C3.  For the ask-doubt and the share-resource form alike: when the
    form's current values fail the schema, submitting issues no call to the
    document store (the call log and the store are unchanged, nothing else
    in the world changes either), the issues of the schema, of which there
    is at least one, become the form's field-level errors, and the values
    stay; so a submission that issued a call had values the schema
    accepts. *)
Theorem validation_failure_issues_no_write :
  (forall user db net st w issues,
     AskDoubt.formSchema (values (AskDoubt.form st)) = Failure issues ->
     let r := run (AskDoubt.submit user db net) st w in
     r.2 = w /\ calls r.2 = calls w /\ store r.2 = store w /\
     fieldErrors (AskDoubt.form r.1) = issues /\ issues <> [] /\
     values (AskDoubt.form r.1) = values (AskDoubt.form st)) /\
  (forall url_check user db net st w issues,
     ShareResource.formSchema url_check (values (ShareResource.form st)) = Failure issues ->
     let r := run (ShareResource.submit url_check user db net) st w in
     r.2 = w /\ calls r.2 = calls w /\ store r.2 = store w /\
     fieldErrors (ShareResource.form r.1) = issues /\ issues <> [] /\
     values (ShareResource.form r.1) = values (ShareResource.form st)) /\
  (forall user db net st w,
     calls (run (AskDoubt.submit user db net) st w).2 <> calls w ->
     accepts (AskDoubt.formSchema (values (AskDoubt.form st))) = true) /\
  (forall url_check user db net st w,
     calls (run (ShareResource.submit url_check user db net) st w).2 <> calls w ->
     accepts (ShareResource.formSchema url_check (values (ShareResource.form st))) = true).
Proof.
  split; [|split; [|split]].
  - intros user db net st w issues H r. subst r.
    rewrite (ask_submit_invalid _ _ _ _ _ _ H). simpl.
    eauto 10 using ask_formSchema_failure.
  - intros url_check user db net st w issues H r. subst r.
    rewrite (share_submit_invalid _ _ _ _ _ _ _ H). simpl.
    eauto 10 using formSchema_failure.
  - intros user db net st w Hc.
    destruct (AskDoubt.formSchema _) as [d|issues] eqn:H; [reflexivity|].
    rewrite (ask_submit_invalid _ _ _ _ _ _ H) in Hc. by destruct Hc.
  - intros url_check user db net st w Hc.
    destruct (ShareResource.formSchema _ _) as [d|issues] eqn:H; [reflexivity|].
    rewrite (share_submit_invalid _ _ _ _ _ _ _ H) in Hc. by destruct Hc.
Qed.

(** An ask-doubt form with no subject and a short description, and a
    share-resource form whose Drive link is filed as YouTube. *)
Lemma validation_failure_issues_no_write_witness :
  let w := {| store := ∅; accounts := ∅; calls := []; toasts := []; routes := [] |} in
  let u := Some {| uid := js "U1"; displayName := Some (js "Asha") |} in
  let net := {| autoId := js "D1"; failure := None |} in
  let ask := {| AskDoubt.form :=
                  {| values := {| AskDoubt.subject := js "";
                                  AskDoubt.description := js "too short" |};
                     fieldErrors := [] |};
                AskDoubt.isSubmitting := false; AskDoubt.error := None |} in
  let share := {| ShareResource.form :=
                    {| values := {| ShareResource.r_topic := js "Quick Sort";
                                    ShareResource.r_subject := js "DSA";
                                    ShareResource.r_description := Some [];
                                    ShareResource.r_resourceType := Some ShareResource.Youtube;
                                    ShareResource.r_url := js "https://drive.google.com/file/d/1" |};
                       fieldErrors := [] |};
                  ShareResource.isSubmitting := false; ShareResource.error := None |} in
  calls (run (AskDoubt.submit u true net) ask w).2 = [] /\
  fieldErrors (AskDoubt.form (run (AskDoubt.submit u true net) ask w).1) =
    [ {| path := "subject"; msg := "Please select a subject." |};
      {| path := "description"; msg := "Description must be at least 10 characters." |} ] /\
  calls (run (ShareResource.submit ShareResource.has_scheme u true net) share w).2 = [] /\
  fieldErrors (ShareResource.form
                 (run (ShareResource.submit ShareResource.has_scheme u true net) share w).1) =
    [ {| path := "url";
         msg := "Please enter a valid URL for the selected resource type." |} ].
Proof.
  intros w u net ask share.
  destruct validation_failure_issues_no_write as (Hask & Hshare & _).
  split; [|split; [|split]].
  - eapply (Hask u true net ask w). vm_compute. reflexivity.
  - eapply (Hask u true net ask w). vm_compute. reflexivity.
  - eapply (Hshare ShareResource.has_scheme u true net share w). vm_compute. reflexivity.
  - eapply (Hshare ShareResource.has_scheme u true net share w). vm_compute. reflexivity.
Defined.

End ValidationGate.

(* --------------------------------------------------------------------- *)
(** ** A resolved doubt stays resolved (C4)                                 *)
(* --------------------------------------------------------------------- *)

Section ResolveMonotone.
Import App.

Lemma docs_of_insert (st : gmap string (gmap (list N) (gmap string Value)))
    coll coll' m :
  docs_of (<[coll := m]> st) coll' =
    if decide (coll = coll') then m else docs_of st coll'.
Proof.
  unfold docs_of. destruct (decide (coll = coll')) as [->|Hne].
  - by rewrite lookup_insert_eq.
  - by rewrite lookup_insert_ne.
Qed.

(** A rejected write leaves the store as it was. *)
Lemma exec_err net c st e : (exec net c st).1 = Err e -> (exec net c st).2 = st.
Proof.
  unfold exec. destruct c; destruct (has_undefined _); try done;
    destruct (failure net); try done; destruct (_ !! _); done.
Qed.

Lemma resolve_patch (doc : gmap string Value) :
  obj [("isResolved", VBool true)] ∪ doc = <["isResolved" := VBool true]> doc.
Proof.
  unfold obj. simpl. by rewrite <- insert_union_l, (left_id_L ∅ (∪)).
Qed.

(** What a call of the application does to an existing doubt: nothing, or,
    for the resolve call on that doubt, it sets [isResolved] to [true]. *)
Lemma exec_existing_doubt net c st d doc :
  app_call c ->
  docs_of st "doubts" !! d = Some doc ->
  docs_of (exec net c st).2 "doubts" !! d = Some doc \/
  (c = UpdateDoc "doubts" d (obj [("isResolved", VBool true)]) /\
   docs_of (exec net c st).2 "doubts" !! d =
     Some (<["isResolved" := VBool true]> doc)).
Proof.
  intros Hc Hd. unfold exec.
  destruct Hc; (destruct (has_undefined _); [by left|]);
    (destruct (failure net); [by left|]); simpl.
  - destruct (docs_of st "doubts" !! autoId net) eqn:E; [by left|]. simpl.
    left. rewrite docs_of_insert. rewrite decide_True by done.
    rewrite lookup_insert_ne; [done | congruence].
  - destruct (docs_of st "notes" !! autoId net); [by left|]. simpl.
    left. rewrite docs_of_insert. by rewrite decide_False.
  - destruct (docs_of st "answers" !! autoId net); [by left|]. simpl.
    left. rewrite docs_of_insert. by rewrite decide_False.
  - destruct (docs_of st "doubts" !! i) as [old|] eqn:E; [|by left]. simpl.
    rewrite docs_of_insert, decide_True by done.
    destruct (decide (i = d)) as [->|Hne].
    + right. rewrite lookup_insert_eq. split; [done|].
      rewrite E in Hd. injection Hd as ->. by rewrite resolve_patch.
    + left. by rewrite lookup_insert_ne.
  - left. rewrite docs_of_insert. by rewrite decide_False.
Qed.

(** A doubt a call of the application brings into being is unresolved. *)
Lemma exec_new_doubt net c st d doc :
  app_call c ->
  docs_of st "doubts" !! d = None ->
  docs_of (exec net c st).2 "doubts" !! d = Some doc ->
  doc !! "isResolved" = Some (VBool false).
Proof.
  intros Hc Hd. unfold exec.
  destruct Hc; (destruct (has_undefined _); [simpl; congruence|]);
    (destruct (failure net); [simpl; congruence|]); simpl.
  - destruct (docs_of st "doubts" !! autoId net) eqn:E; [simpl; congruence|].
    simpl. rewrite docs_of_insert, decide_True by done.
    destruct (decide (autoId net = d)) as [->|Hne].
    + rewrite lookup_insert_eq. intros [= <-]. reflexivity.
    + rewrite lookup_insert_ne by done. congruence.
  - destruct (docs_of st "notes" !! autoId net); [simpl; congruence|]. simpl.
    rewrite docs_of_insert, decide_False by done. congruence.
  - destruct (docs_of st "answers" !! autoId net); [simpl; congruence|]. simpl.
    rewrite docs_of_insert, decide_False by done. congruence.
  - destruct (docs_of st "doubts" !! i) as [old|] eqn:E; [|simpl; congruence].
    simpl. rewrite docs_of_insert, decide_True by done.
    destruct (decide (i = d)) as [->|Hne]; [congruence|].
    rewrite lookup_insert_ne by done. congruence.
  - rewrite docs_of_insert, decide_False by done. congruence.
Qed.

(** An action leaves the store alone or runs one call of the application
    on it; the call is a resolve call only for the resolve action. *)
Lemma act_store a w :
  store (act a w) = store w \/
  exists net c,
    app_call c /\
    (forall d, c = UpdateDoc "doubts" d (obj [("isResolved", VBool true)]) ->
               resolves a d) /\
    store (act a w) = (exec net c (store w)).2.
Proof.
  destruct a as [user db net page|url_check user db net page
                |doubt user db net page|db net doubtId page
                |email_check auth db created renamed net page]; simpl.
  - unfold AskDoubt.submit, AskDoubt.onSubmit. unfold_m. simpl.
    destruct (AskDoubt.formSchema _) as [v|]; [|by left].
    destruct user as [u|], db; try by left.
    unfold AskDoubt.setError, AskDoubt.setIsSubmitting. unfold_m. simpl.
    right. exists net, (AddDoc "doubts" (AskDoubt.doubt_doc u v)).
    split; [constructor|]. split; [discriminate|].
    by destruct (exec _ _ _) as [[] ?].
  - unfold ShareResource.submit, ShareResource.onSubmit. unfold_m. simpl.
    destruct (ShareResource.formSchema _ _) as [v|]; [|by left].
    destruct user as [u|], db; try by left.
    unfold ShareResource.setError, ShareResource.setIsSubmitting. unfold_m. simpl.
    right. exists net, (AddDoc "notes" (ShareResource.note_doc u v)).
    split; [constructor|]. split; [discriminate|].
    by destruct (exec _ _ _) as [[] ?].
  - unfold DoubtDetailsDialog.handleSubmit. unfold_m.
    destruct user as [u|]; [|by left]. destruct db; [|by left]. simpl.
    destruct (trim _); [by left|].
    unfold DoubtDetailsDialog.setIsSubmitting, DoubtDetailsDialog.setAnswer.
    unfold_m. simpl.
    right. exists net, (AddDoc "answers"
      (DoubtDetailsDialog.answer_doc doubt u (DoubtDetailsDialog.answer page))).
    split; [constructor|]. split; [discriminate|].
    by destruct (exec _ _ _) as [[] ?].
  - unfold DoubtsFeed.handleMarkAsResolved. unfold_m.
    destruct db; [|by left]. simpl.
    right. exists net, (UpdateDoc "doubts" doubtId (obj [("isResolved", VBool true)])).
    split; [constructor|]. split; [by intros d [= ->]|].
    by destruct (exec _ _ _) as [[] ?].
  - unfold Signup.submit, Signup.onSubmit. unfold_m. simpl.
    destruct (Signup.formSchema _ _) as [v|]; [|by left].
    unfold Signup.setError, Signup.setLoading. unfold_m. simpl.
    destruct auth, db; try by left. simpl.
    unfold Signup.createUser, Signup.account_creation_failed, Signup.setError,
      Signup.setLoading.
    destruct created as [u|e]; unfold_m; simpl; [|by left].
    unfold Signup.updateProfile, Signup.saveProfile, Signup.setError,
      Signup.setLoading.
    destruct renamed as [e|]; unfold_m; simpl; [by left|].
    right. exists net, (SetDoc "users" u (Signup.profile_doc u v)).
    split; [constructor|]. split; [discriminate|].
    by destruct (exec _ _ _) as [[] ?].
Qed.

Lemma act_existing_doubt a w i doc :
  docs_of (store w) "doubts" !! i = Some doc ->
  docs_of (store (act a w)) "doubts" !! i = Some doc \/
  (resolves a i /\
   docs_of (store (act a w)) "doubts" !! i =
     Some (<["isResolved" := VBool true]> doc)).
Proof.
  intros Hi. destruct (act_store a w) as [->|(net & c & Hc & Hres & ->)].
  - by left.
  - destruct (exec_existing_doubt net c (store w) i doc Hc Hi) as [?|[-> ?]];
      [by left | right; auto].
Qed.

Lemma act_new_doubt a w i doc :
  docs_of (store w) "doubts" !! i = None ->
  docs_of (store (act a w)) "doubts" !! i = Some doc ->
  doc !! "isResolved" = Some (VBool false).
Proof.
  intros Hi. destruct (act_store a w) as [->|(net & c & Hc & _ & ->)].
  - congruence.
  - by apply exec_new_doubt.
Qed.

Lemma act_resolved a w d : resolved w d -> resolved (act a w) d.
Proof.
  unfold resolved, field. intros H.
  destruct (docs_of (store w) "doubts" !! d) as [doc|] eqn:Hd; [|done].
  destruct (act_existing_doubt a w d doc Hd) as [->|[_ ->]]; [done|].
  simpl. by rewrite lookup_insert_eq.
Qed.

(** C4.  Over any sequence of the application's writing operations (post a
    doubt, share a resource, submit an answer, mark as resolved, sign up),
    a doubt whose [isResolved] is [true] in the store still has it [true]
    afterwards.  Moreover a doubt document that an operation brings into
    being has [isResolved = false], and an operation leaves an existing
    doubt document as it is unless it is the resolve operation on that
    doubt, which sets [isResolved] to [true] and changes no other field. *)
Theorem resolved_doubt_stays_resolved
    (acts : list Action) (w : World) (d : jsstring) :
  resolved w d ->
  resolved (perform acts w) d /\
  (forall a w0 i doc,
     docs_of (store w0) "doubts" !! i = None ->
     docs_of (store (act a w0)) "doubts" !! i = Some doc ->
     doc !! "isResolved" = Some (VBool false)) /\
  (forall a w0 i doc,
     docs_of (store w0) "doubts" !! i = Some doc ->
     docs_of (store (act a w0)) "doubts" !! i = Some doc \/
     (resolves a i /\
      docs_of (store (act a w0)) "doubts" !! i =
        Some (<["isResolved" := VBool true]> doc))).
Proof.
  intros H. split; [|split].
  - revert w H. unfold perform.
    induction acts as [|a acts IH]; intros w H; simpl; [done|].
    apply IH. by apply act_resolved.
  - intros a w0 i doc. apply act_new_doubt.
  - intros a w0 i doc. apply act_existing_doubt.
Qed.

(** U1's doubt D1 is resolved; U2 then posts a doubt (stored as D2) and
    answers D1, and U1 presses Resolve on D1 again: D1 is still resolved. *)
Lemma resolved_doubt_stays_resolved_witness :
  let u1 := {| uid := js "U1"; displayName := Some (js "Asha") |} in
  let u2 := {| uid := js "U2"; displayName := Some (js "Ravi") |} in
  let d1 := {| FeedTypes.id := js "D1"; FeedTypes.userId := js "U1";
               FeedTypes.userName := js "Asha"; FeedTypes.subject := js "DSA";
               FeedTypes.description := js "What is a red-black tree?";
               FeedTypes.createdAt := Some 1%N; FeedTypes.isResolved := true |} in
  let w := {| store := {[ "doubts" :=
                {[ js "D1" := <["isResolved" := VBool true]>
                     (AskDoubt.doubt_doc u1
                        {| AskDoubt.subject := js "DSA";
                           AskDoubt.description := js "What is a red-black tree?" |}) ]} ]};
              accounts := ∅; calls := []; toasts := []; routes := [] |} in
  let acts :=
    [ PostDoubt (Some u2) true {| autoId := js "D2"; failure := None |}
        {| AskDoubt.form :=
             {| values := {| AskDoubt.subject := js "OS";
                             AskDoubt.description := js "What is a semaphore?" |};
                fieldErrors := [] |};
           AskDoubt.isSubmitting := false; AskDoubt.error := None |};
      SubmitAnswer d1 (Some u2) true {| autoId := js "A1"; failure := None |}
        {| DoubtDetailsDialog.answer := js "It's a self-balancing BST.";
           DoubtDetailsDialog.isSubmitting := false |};
      MarkAsResolved true {| autoId := []; failure := None |} (js "D1")
        DoubtsFeed.init ] in
  resolved (perform acts w) (js "D1").
Proof.
  intros u1 u2 d1 w acts.
  apply (resolved_doubt_stays_resolved acts w (js "D1")).
  vm_compute. reflexivity.
Defined.

End ResolveMonotone.

(* --------------------------------------------------------------------- *)
(** ** Errors of the live queries (C5, C6)                                  *)
(* --------------------------------------------------------------------- *)

Section LiveQueryErrors.
Import LiveQueries.

Lemma index_msg_not_unexpected m :
  AnswerList.index_msg <> AnswerList.unexpected_msg m.
Proof.
  intros H. apply (f_equal head) in H. vm_compute in H. discriminate.
Qed.

(** C5, as stated, fails: the doubts feed shows the same toast for a
    missing index as for an unavailable service, and so does the resource
    library with its alert. *)
Lemma doubts_feed_error_not_distinguished :
  code missing_index = js "failed-precondition" /\
  code unavailable <> js "failed-precondition" /\
  surfaced DoubtsQuery missing_index = Some (js "Could not fetch doubts.") /\
  surfaced DoubtsQuery unavailable = Some (js "Could not fetch doubts.") /\
  surfaced NotesQuery missing_index = surfaced NotesQuery unavailable.
Proof.
  repeat split; try reflexivity. vm_compute. discriminate.
Qed.

(** C5 (amended).  For the answers list's live query, an error classified
    [failed-precondition] is shown as the message that tells the user to
    create the database index, and any other error as the generic message
    with the error's text; the two are never equal.  The live queries of
    the doubts feed and of the resource library show one fixed message
    whatever the error's classification. *)
Theorem answers_query_distinguishes_missing_index (e e' : FirebaseError) :
  code e = js "failed-precondition" ->
  code e' <> js "failed-precondition" ->
  surfaced AnswersQuery e = Some AnswerList.index_msg /\
  surfaced AnswersQuery e' = Some (AnswerList.unexpected_msg (message e')) /\
  surfaced AnswersQuery e <> surfaced AnswersQuery e' /\
  surfaced DoubtsQuery e = Some (js "Could not fetch doubts.") /\
  surfaced DoubtsQuery e' = Some (js "Could not fetch doubts.") /\
  surfaced NotesQuery e = Some (js "Failed to fetch resources from the database.") /\
  surfaced NotesQuery e' = Some (js "Failed to fetch resources from the database.").
Proof.
  intros He He'.
  assert (H1 : surfaced AnswersQuery e = Some AnswerList.index_msg).
  { unfold surfaced, AnswerList.onError, AnswerList.render. simpl.
    rewrite bool_decide_eq_true_2 by done. reflexivity. }
  assert (H2 : surfaced AnswersQuery e' =
               Some (AnswerList.unexpected_msg (message e'))).
  { unfold surfaced, AnswerList.onError, AnswerList.render. simpl.
    rewrite bool_decide_eq_false_2 by done. reflexivity. }
  split_and!; try assumption; try reflexivity.
  rewrite H1, H2. intros H.
  apply (index_msg_not_unexpected (message e')). congruence.
Qed.

Lemma answers_query_distinguishes_missing_index_witness :
  surfaced AnswersQuery missing_index = Some AnswerList.index_msg /\
  surfaced AnswersQuery unavailable =
    Some (js "An unexpected database error occurred: The service is currently unavailable.").
Proof.
  assert (Hne : code unavailable <> js "failed-precondition")
    by (vm_compute; discriminate).
  destruct (answers_query_distinguishes_missing_index missing_index unavailable
              eq_refl Hne) as (H1 & H2 & _).
  split; [exact H1 | exact H2].
Defined.

(** Snapshots delivered before the error: the answers list holds the
    last of them. *)
Lemma answers_deliver_snapshots (snaps : list (list FeedTypes.Answer))
    (evs : list (SnapshotEvent FeedTypes.Answer)) (st : AnswerList.State) :
  AnswerList.deliver (map Next snaps ++ evs) st =
    AnswerList.deliver evs
      (match last snaps with
       | Some docs => AnswerList.onNext docs st
       | None => st
       end).
Proof.
  revert st. induction snaps as [|docs snaps IH]; intros st; simpl; [done|].
  rewrite IH. destruct snaps as [|docs' snaps]; [done|].
  rewrite !last_cons. by destruct (last snaps).
Qed.

Lemma notes_deliver_snapshots (snaps : list (list NotesPage.Resource))
    (evs : list (SnapshotEvent NotesPage.Resource)) (st : NotesPage.State) :
  NotesPage.deliver (map Next snaps ++ evs) st =
    NotesPage.deliver evs
      (match last snaps with
       | Some docs => NotesPage.onNext docs st
       | None => st
       end).
Proof.
  revert st. induction snaps as [|docs snaps IH]; intros st; simpl; [done|].
  rewrite IH. destruct snaps as [|docs' snaps]; [done|].
  rewrite !last_cons. by destruct (last snaps).
Qed.

Lemma doubts_deliver_snapshots (snaps : list (list FeedTypes.Doubt))
    (evs : list (SnapshotEvent FeedTypes.Doubt)) (st : DoubtsFeed.State)
    (w : World) :
  run (DoubtsFeed.deliver (map Next snaps ++ evs)) st w =
    run (DoubtsFeed.deliver evs)
      (match last snaps with
       | Some docs => {| DoubtsFeed.doubts := docs; DoubtsFeed.loading := false |}
       | None => st
       end) w.
Proof.
  revert st. induction snaps as [|docs snaps IH]; intros st; [done|].
  change (run (DoubtsFeed.deliver (map Next (docs :: snaps) ++ evs)) st w)
    with (run (DoubtsFeed.deliver (map Next snaps ++ evs))
            {| DoubtsFeed.doubts := docs; DoubtsFeed.loading := false |} w).
  rewrite IH. destruct snaps as [|docs' snaps]; [done|].
  rewrite !last_cons. by destruct (last snaps).
Qed.

(** C6, as stated, fails for the doubts feed.  The feed has no error state
    to persist: its error callback shows a toast and ends the loading
    state, and the view that follows is the card of an empty feed, with
    nothing of the error in it. *)
Lemma doubts_feed_error_not_displayed :
  run (DoubtsFeed.deliver [Error missing_index]) DoubtsFeed.init empty_world =
    ({| DoubtsFeed.doubts := []; DoubtsFeed.loading := false |},
     {| store := ∅; accounts := ∅; calls := [];
        toasts := [ {| t_variant := Destructive; t_title := "Error";
                       t_description := Some "Could not fetch doubts." |} ];
        routes := [] |}) /\
  DoubtsFeed.render None
    (run (DoubtsFeed.deliver [Error missing_index]) DoubtsFeed.init empty_world).1
    = DoubtsFeed.QuietInHere.
Proof.
  split; reflexivity.
Qed.

(** C6 (amended).  In the answers list and in the resource library, once
    the subscription's error callback has fired the error state is set and
    the error alert is displayed, whatever snapshots came before and for
    the rest of the subscription, in which no further event is delivered;
    the resource library shows no card beside the alert.  The doubts feed
    keeps no error state: its error callback shows one toast and ends the
    loading state, and the feed goes on showing the doubts of the last
    snapshot, or the card of an empty feed when it holds none. *)
Theorem live_query_error_persistence
    (e : FirebaseError)
    (answers_before : list (list FeedTypes.Answer))
    (answers_after : list (SnapshotEvent FeedTypes.Answer))
    (notes_before : list (list NotesPage.Resource))
    (notes_after : list (SnapshotEvent NotesPage.Resource))
    (doubts_before : list (list FeedTypes.Doubt))
    (doubts_after : list (SnapshotEvent FeedTypes.Doubt)) :
  (forall st,
     let s := AnswerList.deliver
                (map Next answers_before ++ Error e :: answers_after) st in
     let shown := if bool_decide (code e = js "failed-precondition")
                  then AnswerList.index_msg
                  else AnswerList.unexpected_msg (message e) in
     AnswerList.fetchError s = Some shown /\
     AnswerList.loading s = false /\
     AnswerList.render s =
       AnswerList.ErrorAlert "Action Required: Database Index Missing" shown) /\
  (forall st,
     let s := NotesPage.deliver
                (map Next notes_before ++ Error e :: notes_after) st in
     NotesPage.error s = Some "Failed to fetch resources from the database." /\
     NotesPage.loading s = false /\
     NotesPage.errorAlert (NotesPage.render s) =
       Some "Failed to fetch resources from the database." /\
     NotesPage.cards (NotesPage.render s) = [] /\
     NotesPage.nothingHereYet (NotesPage.render s) = false) /\
  (forall user st w,
     let r := run (DoubtsFeed.deliver
                     (map Next doubts_before ++ Error e :: doubts_after)) st w in
     let held := default (DoubtsFeed.doubts st) (last doubts_before) in
     r.1 = {| DoubtsFeed.doubts := held; DoubtsFeed.loading := false |} /\
     r.2 = {| store := store w; accounts := accounts w; calls := calls w;
              toasts := toasts w ++
                [ {| t_variant := Destructive; t_title := "Error";
                     t_description := Some "Could not fetch doubts." |} ];
              routes := routes w |} /\
     DoubtsFeed.render user r.1 =
       match held with
       | [] => DoubtsFeed.QuietInHere
       | _ => DoubtsFeed.Grid (map (DoubtsFeed.card user) held)
       end).
Proof.
  split_and!.
  - intros st s shown. subst s. rewrite answers_deliver_snapshots.
    simpl. unfold AnswerList.render. simpl. fold shown.
    split_and!; [reflexivity | reflexivity |].
    subst shown. destruct (bool_decide _); reflexivity.
  - intros st s. subst s. rewrite notes_deliver_snapshots.
    simpl. split_and!; reflexivity.
  - intros user st w r held. subst r. rewrite doubts_deliver_snapshots.
    subst held. destruct (last doubts_before) as [l|]; simpl;
      (split_and!; [reflexivity | reflexivity |]);
      unfold DoubtsFeed.render; simpl;
      [by destruct l | by destruct (DoubtsFeed.doubts st)].
Qed.

(** The query of a doubt's answers lacks its index, and so does the
    resource library's after a first snapshot; the doubts feed loses its
    connection after a first snapshot of one doubt. *)
Lemma live_query_error_persistence_witness :
  AnswerList.render (AnswerList.deliver [Error missing_index] AnswerList.init) =
    AnswerList.ErrorAlert "Action Required: Database Index Missing"
      AnswerList.index_msg /\
  NotesPage.errorAlert
    (NotesPage.render
       (NotesPage.deliver [Next []; Error missing_index] NotesPage.init)) =
    Some "Failed to fetch resources from the database." /\
  NotesPage.nothingHereYet
    (NotesPage.render
       (NotesPage.deliver [Next []; Error missing_index] NotesPage.init)) =
    false /\
  toasts (run (DoubtsFeed.deliver [Next []; Error missing_index])
            DoubtsFeed.init empty_world).2 =
    [ {| t_variant := Destructive; t_title := "Error";
         t_description := Some "Could not fetch doubts." |} ] /\
  DoubtsFeed.render None
    (run (DoubtsFeed.deliver [Next []; Error missing_index])
       DoubtsFeed.init empty_world).1 = DoubtsFeed.QuietInHere.
Proof.
  destruct (live_query_error_persistence missing_index [] [] [[]] [] [[]] [])
    as (Ha & Hn & Hd).
  destruct (Ha AnswerList.init) as (_ & _ & Ha').
  destruct (Hn NotesPage.init) as (He & Hl & Hal & Hc & Hq).
  destruct (Hd None DoubtsFeed.init empty_world) as (Hs & Hw & Hr).
  split_and!.
  - exact Ha'.
  - exact Hal.
  - exact Hq.
  - exact (f_equal toasts Hw).
  - exact Hr.
Defined.

End LiveQueryErrors.

(* --------------------------------------------------------------------- *)
(** ** Remote failure of a form-gated write (C7)                            *)
(* --------------------------------------------------------------------- *)

Section RemoteFailure.

(** The ask-doubt form with accepted values, a signed-in user and a
    configured store: one [addDoc], then either reset and redirect, or the
    top-level error with the form as it was. *)
Lemma ask_submit_valid u net st w v :
  AskDoubt.formSchema (values (AskDoubt.form st)) = Success v ->
  run (AskDoubt.submit (Some u) true net) st w =
    let c := AddDoc "doubts" (AskDoubt.doubt_doc u v) in
    match exec net c (store w) with
    | (Ok _, st') =>
        ({| AskDoubt.form := {| values := defaultValues; fieldErrors := [] |};
            AskDoubt.isSubmitting := false; AskDoubt.error := None |},
         with_call c st'
           [ {| t_variant := Default; t_title := "Success!";
                t_description := Some "Your doubt has been posted successfully." |} ]
           [ "/doubts" ] w)
    | (Err _, st') =>
        ({| AskDoubt.form := {| values := values (AskDoubt.form st);
                                fieldErrors := [] |};
            AskDoubt.isSubmitting := false;
            AskDoubt.error := Some AskDoubt.post_failed |},
         with_call c st' [] [] w)
    end.
Proof.
  intros H. unfold AskDoubt.submit, AskDoubt.onSubmit. unfold_m. simpl.
  rewrite H. unfold AskDoubt.setError, AskDoubt.setIsSubmitting. unfold_m. simpl.
  unfold with_call. destruct (exec _ _ _) as [[i|e] st']; simpl;
    by rewrite ?app_nil_r.
Qed.

Lemma share_submit_valid url_check u net st w v :
  ShareResource.formSchema url_check (values (ShareResource.form st)) = Success v ->
  run (ShareResource.submit url_check (Some u) true net) st w =
    let c := AddDoc "notes" (ShareResource.note_doc u v) in
    match exec net c (store w) with
    | (Ok _, st') =>
        ({| ShareResource.form := {| values := defaultValues; fieldErrors := [] |};
            ShareResource.isSubmitting := false; ShareResource.error := None |},
         with_call c st'
           [ {| t_variant := Default; t_title := "Success!";
                t_description := Some "Your resource has been shared successfully." |} ]
           [ "/notes" ] w)
    | (Err _, st') =>
        ({| ShareResource.form := {| values := values (ShareResource.form st);
                                     fieldErrors := [] |};
            ShareResource.isSubmitting := false;
            ShareResource.error := Some ShareResource.share_failed |},
         with_call c st' [] [] w)
    end.
Proof.
  intros H. unfold ShareResource.submit, ShareResource.onSubmit. unfold_m. simpl.
  rewrite H. unfold ShareResource.setError, ShareResource.setIsSubmitting.
  unfold_m. simpl.
  unfold with_call. destruct (exec _ _ _) as [[i|e] st']; simpl;
    by rewrite ?app_nil_r.
Qed.

(** The answer form with text that is not blank, a signed-in user and a
    configured store. *)
Lemma answer_submit_valid doubt u net st w :
  trim (DoubtDetailsDialog.answer st) <> [] ->
  run (DoubtDetailsDialog.handleSubmit doubt (Some u) true net) st w =
    let c := AddDoc "answers"
               (DoubtDetailsDialog.answer_doc doubt u (DoubtDetailsDialog.answer st)) in
    match exec net c (store w) with
    | (Ok _, st') =>
        ({| DoubtDetailsDialog.answer := [];
            DoubtDetailsDialog.isSubmitting := false |},
         with_call c st'
           [ {| t_variant := Default; t_title := "Answer submitted!";
                t_description := None |} ] [] w)
    | (Err _, st') =>
        ({| DoubtDetailsDialog.answer := DoubtDetailsDialog.answer st;
            DoubtDetailsDialog.isSubmitting := false |},
         with_call c st'
           [ {| t_variant := Destructive; t_title := "Error";
                t_description := Some "Could not submit your answer." |} ] [] w)
    end.
Proof.
  intros H. unfold DoubtDetailsDialog.handleSubmit. unfold_m. simpl.
  destruct (trim _) as [|c0 t]; [done|].
  unfold DoubtDetailsDialog.setIsSubmitting, DoubtDetailsDialog.setAnswer.
  unfold_m. simpl.
  unfold with_call. destruct (exec _ _ _) as [[i|e] st']; simpl;
    by rewrite ?app_nil_r.
Qed.

(** When the answer form refuses to submit, nothing but a toast (and, for
    a signed-out user, a redirect) happens. *)
Lemma answer_submit_refused doubt user db net st w :
  user = None \/ db = false \/ trim (DoubtDetailsDialog.answer st) = [] ->
  let r := run (DoubtDetailsDialog.handleSubmit doubt user db net) st w in
  r.1 = st /\ calls r.2 = calls w /\ store r.2 = store w /\
  exists t, toasts r.2 = toasts w ++ [t] /\ t_variant t = Destructive.
Proof.
  intros H. unfold DoubtDetailsDialog.handleSubmit. unfold_m.
  destruct user as [u|]; simpl; [|destruct st; eauto 10].
  destruct db; simpl; [|destruct st; eauto 10].
  destruct (trim _) eqn:E; [destruct st; simpl; eauto 10|].
  exfalso. clear -H. intuition discriminate.
Qed.

(** Without a user or a store the forms keep their values. *)
Lemma ask_submit_unconfigured user db net st w :
  user = None \/ db = false ->
  values (AskDoubt.form (run (AskDoubt.submit user db net) st w).1) =
    values (AskDoubt.form st).
Proof.
  intros H. unfold AskDoubt.submit, AskDoubt.onSubmit. unfold_m. simpl.
  destruct (AskDoubt.formSchema _); [|reflexivity].
  destruct user, db; try reflexivity. exfalso. intuition discriminate.
Qed.

Lemma share_submit_unconfigured url_check user db net st w :
  user = None \/ db = false ->
  values (ShareResource.form
            (run (ShareResource.submit url_check user db net) st w).1) =
    values (ShareResource.form st).
Proof.
  intros H. unfold ShareResource.submit, ShareResource.onSubmit. unfold_m. simpl.
  destruct (ShareResource.formSchema _ _); [|reflexivity].
  destruct user, db; try reflexivity. exfalso. intuition discriminate.
Qed.

(** C7.  For the three form-gated writes (post a doubt, share a resource,
    submit an answer), with a signed-in user, a configured store and input
    that passes validation: when the write fails, exactly one call was
    issued, one top-level error is surfaced (the page's [error] state with
    no field error set, or for the answer one destructive toast), and the
    field values are as before; when the write succeeds the fields are
    reset; and whenever a submission changes the field values, its write
    succeeded. *)
Theorem failed_write_keeps_form_values :
  (* post a doubt *)
  (forall u net st w v,
     AskDoubt.formSchema (values (AskDoubt.form st)) = Success v ->
     let c := AddDoc "doubts" (AskDoubt.doubt_doc u v) in
     let r := run (AskDoubt.submit (Some u) true net) st w in
     (forall e, (exec net c (store w)).1 = Err e ->
        AskDoubt.error r.1 = Some AskDoubt.post_failed /\
        fieldErrors (AskDoubt.form r.1) = [] /\
        values (AskDoubt.form r.1) = values (AskDoubt.form st) /\
        calls r.2 = calls w ++ [c] /\ store r.2 = store w /\
        toasts r.2 = toasts w /\ routes r.2 = routes w) /\
     (forall i, (exec net c (store w)).1 = Ok i ->
        values (AskDoubt.form r.1) = defaultValues /\
        AskDoubt.error r.1 = None /\ calls r.2 = calls w ++ [c])) /\
  (forall user db net st w,
     values (AskDoubt.form (run (AskDoubt.submit user db net) st w).1) <>
       values (AskDoubt.form st) ->
     exists u v i, user = Some u /\ db = true /\
       (exec net (AddDoc "doubts" (AskDoubt.doubt_doc u v)) (store w)).1 = Ok i) /\
  (* share a resource *)
  (forall url_check u net st w v,
     ShareResource.formSchema url_check (values (ShareResource.form st)) = Success v ->
     let c := AddDoc "notes" (ShareResource.note_doc u v) in
     let r := run (ShareResource.submit url_check (Some u) true net) st w in
     (forall e, (exec net c (store w)).1 = Err e ->
        ShareResource.error r.1 = Some ShareResource.share_failed /\
        fieldErrors (ShareResource.form r.1) = [] /\
        values (ShareResource.form r.1) = values (ShareResource.form st) /\
        calls r.2 = calls w ++ [c] /\ store r.2 = store w /\
        toasts r.2 = toasts w /\ routes r.2 = routes w) /\
     (forall i, (exec net c (store w)).1 = Ok i ->
        values (ShareResource.form r.1) = defaultValues /\
        ShareResource.error r.1 = None /\ calls r.2 = calls w ++ [c])) /\
  (forall url_check user db net st w,
     values (ShareResource.form
               (run (ShareResource.submit url_check user db net) st w).1) <>
       values (ShareResource.form st) ->
     exists u v i, user = Some u /\ db = true /\
       (exec net (AddDoc "notes" (ShareResource.note_doc u v)) (store w)).1 = Ok i) /\
  (* submit an answer *)
  (forall doubt u net st w,
     trim (DoubtDetailsDialog.answer st) <> [] ->
     let c := AddDoc "answers"
                (DoubtDetailsDialog.answer_doc doubt u (DoubtDetailsDialog.answer st)) in
     let r := run (DoubtDetailsDialog.handleSubmit doubt (Some u) true net) st w in
     (forall e, (exec net c (store w)).1 = Err e ->
        DoubtDetailsDialog.answer r.1 = DoubtDetailsDialog.answer st /\
        calls r.2 = calls w ++ [c] /\ store r.2 = store w /\
        toasts r.2 = toasts w ++
          [ {| t_variant := Destructive; t_title := "Error";
               t_description := Some "Could not submit your answer." |} ]) /\
     (forall i, (exec net c (store w)).1 = Ok i ->
        DoubtDetailsDialog.answer r.1 = [] /\ calls r.2 = calls w ++ [c])) /\
  (forall doubt user db net st w,
     DoubtDetailsDialog.answer
       (run (DoubtDetailsDialog.handleSubmit doubt user db net) st w).1 <>
       DoubtDetailsDialog.answer st ->
     exists u i, user = Some u /\ db = true /\
       (exec net (AddDoc "answers"
          (DoubtDetailsDialog.answer_doc doubt u (DoubtDetailsDialog.answer st)))
          (store w)).1 = Ok i).
Proof.
  split_and!.
  - intros u net st w v Hv c r. subst r.
    rewrite (ask_submit_valid _ _ _ _ _ Hv). cbv zeta.
    pose proof (exec_err net c (store w)) as Herr. subst c.
    destruct (exec net _ (store w)) as [[i|e] st']; simpl in *.
    + split; [intros e [=] | intros i' _; rewrite ?app_nil_r; auto 10].
    + rewrite (Herr e eq_refl).
      split; [intros e' _; rewrite ?app_nil_r; auto 10 | intros i [=]].
  - intros user db net st w Hne.
    destruct user as [u|]; [|by rewrite ask_submit_unconfigured in Hne by auto].
    destruct db; [|by rewrite ask_submit_unconfigured in Hne by auto].
    destruct (AskDoubt.formSchema (values (AskDoubt.form st))) as [v|issues] eqn:Hv.
    + rewrite (ask_submit_valid _ _ _ _ _ Hv) in Hne. simpl in Hne.
      exists u, v.
      destruct (exec net _ (store w)) as [[i|e] st']; simpl in *; [eauto|done].
    + by rewrite (ask_submit_invalid _ _ _ _ _ _ Hv) in Hne.
  - intros url_check u net st w v Hv c r. subst r.
    rewrite (share_submit_valid _ _ _ _ _ _ Hv). cbv zeta.
    pose proof (exec_err net c (store w)) as Herr. subst c.
    destruct (exec net _ (store w)) as [[i|e] st']; simpl in *.
    + split; [intros e [=] | intros i' _; rewrite ?app_nil_r; auto 10].
    + rewrite (Herr e eq_refl).
      split; [intros e' _; rewrite ?app_nil_r; auto 10 | intros i [=]].
  - intros url_check user db net st w Hne.
    destruct user as [u|]; [|by rewrite share_submit_unconfigured in Hne by auto].
    destruct db; [|by rewrite share_submit_unconfigured in Hne by auto].
    destruct (ShareResource.formSchema url_check (values (ShareResource.form st)))
      as [v|issues] eqn:Hv.
    + rewrite (share_submit_valid _ _ _ _ _ _ Hv) in Hne. simpl in Hne.
      exists u, v.
      destruct (exec net _ (store w)) as [[i|e] st']; simpl in *; [eauto|done].
    + by rewrite (share_submit_invalid _ _ _ _ _ _ _ Hv) in Hne.
  - intros doubt u net st w Ht c r. subst r.
    rewrite (answer_submit_valid _ _ _ _ _ Ht). cbv zeta.
    pose proof (exec_err net c (store w)) as Herr. subst c.
    destruct (exec net _ (store w)) as [[i|e] st']; simpl in *.
    + split; [intros e [=] | intros i' _; rewrite ?app_nil_r; auto 10].
    + rewrite (Herr e eq_refl).
      split; [intros e' _; rewrite ?app_nil_r; auto 10 | intros i [=]].
  - intros doubt user db net st w Hne.
    assert (Hrefused : ~ (user = None \/ db = false \/
                          trim (DoubtDetailsDialog.answer st) = [])).
    { intros H. destruct (answer_submit_refused doubt user db net st w H)
        as [Heq _]. cbv zeta in Heq. by rewrite Heq in Hne. }
    destruct user as [u|]; [|tauto]. destruct db; [|tauto].
    assert (Ht : trim (DoubtDetailsDialog.answer st) <> []) by tauto.
    rewrite (answer_submit_valid _ _ _ _ _ Ht) in Hne. simpl in Hne.
    exists u.
    destruct (exec net _ (store w)) as [[i|e] st']; simpl in *; [eauto|done].
Qed.

(** The backend denies U1's doubt and U2's answer. *)
Lemma failed_write_keeps_form_values_witness :
  let denied := {| autoId := js "X1";
                   failure := Some {| code := js "permission-denied";
                                      message := js "Missing or insufficient permissions." |} |} in
  let u1 := {| uid := js "U1"; displayName := Some (js "Asha") |} in
  let v := {| AskDoubt.subject := js "DSA";
              AskDoubt.description := js "What is a red-black tree?" |} in
  let ask := {| AskDoubt.form := {| values := v; fieldErrors := [] |};
                AskDoubt.isSubmitting := false; AskDoubt.error := None |} in
  let d1 := {| FeedTypes.id := js "D1"; FeedTypes.userId := js "U1";
               FeedTypes.userName := js "Asha"; FeedTypes.subject := js "DSA";
               FeedTypes.description := js "What is a red-black tree?";
               FeedTypes.createdAt := Some 1%N; FeedTypes.isResolved := false |} in
  let dialog := {| DoubtDetailsDialog.answer := js "It's a self-balancing BST.";
                   DoubtDetailsDialog.isSubmitting := false |} in
  (AskDoubt.error (run (AskDoubt.submit (Some u1) true denied) ask empty_world).1 =
     Some AskDoubt.post_failed /\
   values (AskDoubt.form (run (AskDoubt.submit (Some u1) true denied) ask empty_world).1) = v) /\
  DoubtDetailsDialog.answer
    (run (DoubtDetailsDialog.handleSubmit d1 (Some u1) true denied) dialog empty_world).1 =
    js "It's a self-balancing BST.".
Proof.
  intros denied u1 v ask d1 dialog.
  destruct failed_write_keeps_form_values as (Hask & _ & _ & _ & Hans & _).
  split.
  - destruct (Hask u1 denied ask empty_world v eq_refl) as [Hfail _].
    destruct (Hfail {| code := js "permission-denied";
                       message := js "Missing or insufficient permissions." |})
      as (He & _ & Hv & _); [vm_compute; reflexivity|].
    split; [exact He | exact Hv].
  - assert (Ht : trim (DoubtDetailsDialog.answer dialog) <> [])
      by (vm_compute; discriminate).
    destruct (Hans d1 u1 denied dialog empty_world Ht) as [Hfail _].
    destruct (Hfail {| code := js "permission-denied";
                       message := js "Missing or insufficient permissions." |})
      as (Ha & _); [vm_compute; reflexivity|].
    exact Ha.
Defined.

End RemoteFailure.

(* --------------------------------------------------------------------- *)
(** ** The resolve button (C9)                                              *)
(* --------------------------------------------------------------------- *)

Section ResolveButton.
Import FeedTypes DoubtsFeed.

(** The condition of the button on one card. *)
Lemma card_resolveButton (user : option User) (d : Doubt) :
  resolveButton (card user d) = true <->
  (exists u, user = Some u /\ uid u = userId d) /\ isResolved d = false.
Proof.
  unfold card, is_author. simpl.
  rewrite andb_true_iff, negb_true_iff. split.
  - intros [Ha Hr]. split; [|exact Hr].
    destruct user as [u|]; [|discriminate].
    apply bool_decide_eq_true in Ha. eauto.
  - intros [(u & -> & Hu) Hr]. split; [|exact Hr].
    by apply bool_decide_eq_true.
Qed.

(** C9.  When the doubts feed shows its grid, the grid has one card per
    doubt of the current snapshot, in order, and a card shows the Resolve
    button exactly when a user is signed in whose uid is the doubt's
    [userId] and the doubt is not resolved.  So the button is absent for
    every viewer who is not the author, signed in or not. *)
Theorem resolve_button_iff_author_and_open
    (user : option User) (st : State) (cards : list Card) :
  render user st = Grid cards ->
  map c_doubt cards = doubts st /\
  forall c, In c cards ->
    (resolveButton c = true <->
       (exists u, user = Some u /\ uid u = userId (c_doubt c)) /\
       isResolved (c_doubt c) = false).
Proof.
  unfold render. intros H. destruct (loading st); [discriminate|].
  assert (Hc : cards = map (card user) (doubts st)).
  { destruct (doubts st); [discriminate|]. by injection H as <-. }
  subst cards. split.
  - rewrite map_map. simpl. apply map_id.
  - intros c Hc. apply in_map_iff in Hc as (d & <- & _).
    apply card_resolveButton.
Qed.

(** U1's open doubt and U2's open doubt, seen by U1: only the first card
    has the button. *)
Lemma resolve_button_iff_author_and_open_witness :
  let u1 := {| uid := js "U1"; displayName := Some (js "Asha") |} in
  let d1 := {| id := js "D1"; userId := js "U1"; userName := js "Asha";
               subject := js "DSA"; description := js "What is a red-black tree?";
               createdAt := Some 1%N; isResolved := false |} in
  let d2 := {| id := js "D2"; userId := js "U2"; userName := js "Ravi";
               subject := js "OS"; description := js "What is a semaphore?";
               createdAt := Some 2%N; isResolved := false |} in
  resolveButton (card (Some u1) d1) = true /\
  resolveButton (card (Some u1) d2) <> true.
Proof.
  intros u1 d1 d2.
  destruct (resolve_button_iff_author_and_open (Some u1)
              {| doubts := [d1; d2]; loading := false |}
              [card (Some u1) d1; card (Some u1) d2] eq_refl) as [_ H].
  split.
  - apply (H (card (Some u1) d1)); [simpl; auto|].
    split; [exists u1; split; reflexivity | reflexivity].
  - intros Hb. apply (H (card (Some u1) d2)) in Hb; [|simpl; auto].
    destruct Hb as [(u & [= <-] & Hu) _]. vm_compute in Hu. discriminate.
Defined.

End ResolveButton.

(* --------------------------------------------------------------------- *)
(** ** Submitting an answer (C10)                                           *)
(* --------------------------------------------------------------------- *)

Section SubmitAnswer.
Import FeedTypes DoubtDetailsDialog.

Lemma trimStart_nil s : trimStart s = [] <-> blank s.
Proof.
  unfold blank. induction s as [|c s IH]; simpl.
  - split; [constructor | reflexivity].
  - destruct (is_trimmable c) eqn:Hc.
    + rewrite IH. split; [by constructor | by inversion 1].
    + split; [discriminate | inversion 1; congruence].
Qed.

Lemma trimStart_head s c t : trimStart s = c :: t -> is_trimmable c = false.
Proof.
  induction s as [|c' s IH]; simpl; [discriminate|].
  destruct (is_trimmable c') eqn:Hc; [exact IH | congruence].
Qed.

(** [!answer.trim()] holds exactly for blank text. *)
Lemma trim_nil s : trim s = [] <-> blank s.
Proof.
  unfold trim, trimEnd. split.
  - intros H. apply trimStart_nil.
    destruct (trimStart s) as [|c t] eqn:E; [reflexivity|exfalso].
    apply trimStart_head in E.
    apply (f_equal (@rev N)) in H. rewrite rev_involutive in H. simpl in H.
    apply trimStart_nil in H. unfold blank in H.
    rewrite Forall_forall in H.
    rewrite (H c) in E; [discriminate|].
    apply list_elem_of_In. apply (proj1 (in_rev (c :: t) c)). simpl. auto.
  - intros H. apply trimStart_nil in H. rewrite H. reflexivity.
Qed.

Lemma answer_doc_defined doubt u text :
  has_undefined (answer_doc doubt u text) = false.
Proof.
  unfold answer_doc. destruct (displayName u); vm_compute; reflexivity.
Qed.

(** C10.  Submitting an answer whose text is blank (empty, or white space
    only) issues no call and leaves the store alone, shows one destructive
    toast, and leaves the typed text in place, whoever the viewer is.
    Submitting text that is not blank as a signed-in user with the store
    configured issues exactly one call: an [addDoc] to the answers
    collection whose [doubtId] is the id of the doubt being viewed, whose
    [userId] is the user's uid and whose [text] is the text as typed; and
    when the backend commits it under a new id, that document is the one
    document added to the collection. *)
Theorem submit_answer_blank_or_one_create :
  (forall doubt user db net st w,
     blank (answer st) ->
     let r := run (handleSubmit doubt user db net) st w in
     calls r.2 = calls w /\ store r.2 = store w /\
     (exists t, toasts r.2 = toasts w ++ [t] /\ t_variant t = Destructive) /\
     answer r.1 = answer st) /\
  (forall doubt u net st w,
     ~ blank (answer st) ->
     let r := run (handleSubmit doubt (Some u) true net) st w in
     exists data,
       calls r.2 = calls w ++ [AddDoc "answers" data] /\
       data !! "doubtId" = Some (VStr (id doubt)) /\
       data !! "userId" = Some (VStr (uid u)) /\
       data !! "text" = Some (VStr (answer st)) /\
       (failure net = None ->
        docs_of (store w) "answers" !! autoId net = None ->
        docs_of (store r.2) "answers" =
          <[autoId net := data]> (docs_of (store w) "answers"))).
Proof.
  split.
  - intros doubt user db net st w Hb r. subst r.
    destruct (answer_submit_refused doubt user db net st w) as (Hst & Hc & Hs & Ht).
    { right; right. by apply trim_nil. }
    cbv zeta in Hst. rewrite Hst. auto.
  - intros doubt u net st w Hb r. subst r.
    assert (Ht : trim (answer st) <> []) by (by rewrite trim_nil).
    rewrite (answer_submit_valid _ _ _ _ _ Ht). cbv zeta.
    exists (answer_doc doubt u (answer st)).
    assert (Hcalls : forall r st',
      calls (match r : result (list N) with
             | Ok _ =>
                 ({| answer := []; isSubmitting := false |},
                  with_call (AddDoc "answers" (answer_doc doubt u (answer st))) st'
                    [ {| t_variant := Default; t_title := "Answer submitted!";
                         t_description := None |} ] [] w)
             | Err _ =>
                 ({| answer := answer st; isSubmitting := false |},
                  with_call (AddDoc "answers" (answer_doc doubt u (answer st))) st'
                    [ {| t_variant := Destructive; t_title := "Error";
                         t_description := Some "Could not submit your answer." |} ]
                    [] w)
             end).2 = calls w ++ [AddDoc "answers" (answer_doc doubt u (answer st))])
      by (by intros [] ?).
    split_and!.
    + destruct (exec _ _ _) as [r st']. apply Hcalls.
    + reflexivity.
    + reflexivity.
    + reflexivity.
    + intros Hnet Hfresh. unfold exec.
      rewrite answer_doc_defined, Hnet, Hfresh. simpl.
      rewrite docs_of_insert. by rewrite decide_True.
Qed.

(** A signed-out viewer submits three spaces; U2 submits an answer to D1,
    which the backend stores as A1. *)
Lemma submit_answer_blank_or_one_create_witness :
  let d1 := {| id := js "D1"; userId := js "U1"; userName := js "Asha";
               subject := js "DSA"; description := js "What is a red-black tree?";
               createdAt := Some 1%N; isResolved := false |} in
  let u2 := {| uid := js "U2"; displayName := Some (js "Ravi") |} in
  let net := {| autoId := js "A1"; failure := None |} in
  let typed := {| answer := js "It's a self-balancing BST."; isSubmitting := false |} in
  let spaces := {| answer := js "   "; isSubmitting := false |} in
  calls (run (handleSubmit d1 (Some u2) true net) spaces empty_world).2 = [] /\
  exists data,
    calls (run (handleSubmit d1 (Some u2) true net) typed empty_world).2 =
      [AddDoc "answers" data] /\
    data !! "doubtId" = Some (VStr (js "D1")) /\
    data !! "userId" = Some (VStr (js "U2")).
Proof.
  intros d1 u2 net typed spaces.
  destruct submit_answer_blank_or_one_create as [Hblank Hone]. split.
  - apply (Hblank d1 (Some u2) true net spaces empty_world).
    unfold blank. simpl. repeat constructor.
  - destruct (Hone d1 u2 net typed empty_world) as (data & Hc & Hd & Hu & _).
    + intros Hb. apply trim_nil in Hb. vm_compute in Hb. discriminate.
    + exists data. split_and!; assumption.
Defined.

End SubmitAnswer.

(* --------------------------------------------------------------------- *)
(** ** Sign-up and the profile document (C8)                                *)
(* --------------------------------------------------------------------- *)

Section SignupProfile.
Import Signup.

Lemma profile_doc_defined u v : has_undefined (profile_doc u v) = false.
Proof. vm_compute. reflexivity. Qed.

(** The profile document has the four fields and no other. *)
Lemma profile_doc_fields u v :
  dom (profile_doc u v) = {["uid"; "name"; "email"; "upvoteScore"]} /\
  profile_doc u v !! "uid" = Some (VStr u) /\
  profile_doc u v !! "name" = Some (VStr (name v)) /\
  profile_doc u v !! "email" = Some (VStr (email v)) /\
  profile_doc u v !! "upvoteScore" = Some (VNum 0).
Proof.
  split; [|split_and!; reflexivity].
  unfold profile_doc, obj. simpl. rewrite !dom_insert_L, dom_empty_L.
  set_solver.
Qed.

(** When both calls of step 1 succeed: one [setDoc] on [users/{uid}] with
    the profile document [{uid, name, email, upvoteScore: 0}]; if it fails the identity is still there and the
    page shows the message of the incomplete sign-up, which is none of the
    messages of a failed account creation. *)
Lemma signup_after_step_one u net v st w :
  let r := run (onSubmit true true (Created u) None net v) st w in
  calls r.2 = calls w ++ [SetDoc "users" u (profile_doc u v)] /\
  dom (profile_doc u v) = {["uid"; "name"; "email"; "upvoteScore"]} /\
  profile_doc u v !! "upvoteScore" = Some (VNum 0) /\
  accounts r.2 !! u =
    Some {| acc_email := email v; acc_displayName := Some (name v) |} /\
  (failure net = None ->
     docs_of (store r.2) "users" !! u = Some (profile_doc u v) /\
     error r.1 = None /\ routes r.2 = routes w ++ ["/dashboard"]) /\
  (forall e, failure net = Some e ->
     store r.2 = store w /\ error r.1 = Some signup_incomplete /\
     routes r.2 = routes w).
Proof.
  unfold onSubmit, createUser, updateProfile, saveProfile, setError, setLoading.
  unfold_m. simpl. unfold exec. rewrite profile_doc_defined.
  destruct (failure net) as [e|]; simpl;
    (split_and!;
     [ done
     | apply profile_doc_fields
     | reflexivity
     | by rewrite lookup_alter_eq, lookup_insert_eq
     | try done; intros _; rewrite docs_of_insert, decide_True by done;
       by rewrite lookup_insert_eq
     | try done; by intros e' [= <-] ]).
Qed.

(** C8 at the failing input: the identity U1 is created, the display-name
    update that follows in the same [try] is rejected.  The handler returns
    from the first [catch]: the identity exists, no write to [users/U1] was
    issued, and the page says that the account creation failed. *)
Lemma signup_identity_without_profile :
  let r := run (onSubmit true true (Created (js "U1")) (Some network_failed)
                  {| autoId := []; failure := None |} new_member)
             signup_page empty_world in
  accounts r.2 !! js "U1" =
    Some {| acc_email := js "asha@example.com"; acc_displayName := None |} /\
  calls r.2 = [] /\
  docs_of (store r.2) "users" !! js "U1" = None /\
  error r.1 =
    Some "Account Creation Failed: An unknown error occurred during account creation." /\
  error r.1 <> Some signup_incomplete.
Proof.
  vm_compute. split_and!; try reflexivity. discriminate.
Qed.

End SignupProfile.

(* --------------------------------------------------------------------- *)
(** ** What the writing operations keep                                     *)
(* --------------------------------------------------------------------- *)

Section StoreInvariants.
Import App Actors.

(** A call of the application never removes a document, and leaves the
    documents of the answers and notes collections as they are. *)
Lemma exec_keeps_documents net c st coll i doc :
  app_call c ->
  docs_of st coll !! i = Some doc ->
  is_Some (docs_of (exec net c st).2 coll !! i) /\
  (coll = "answers" \/ coll = "notes" ->
   docs_of (exec net c st).2 coll !! i = Some doc).
Proof.
  intros Hc Hd. unfold exec.
  assert (Hadd : forall cl data,
    is_Some (docs_of (match docs_of st cl !! autoId net with
                      | Some _ => (Err already_exists, st)
                      | None => (Ok (autoId net),
                                 <[cl := <[autoId net := data]> (docs_of st cl)]> st)
                      end : result (list N) * _).2 coll !! i) /\
    docs_of (match docs_of st cl !! autoId net with
             | Some _ => (Err already_exists, st)
             | None => (Ok (autoId net),
                        <[cl := <[autoId net := data]> (docs_of st cl)]> st)
             end : result (list N) * _).2 coll !! i = Some doc).
  { intros cl data. destruct (docs_of st cl !! autoId net) eqn:E; simpl;
      [by rewrite Hd|].
    rewrite docs_of_insert. destruct (decide (cl = coll)) as [->|]; [|by rewrite Hd].
    rewrite lookup_insert_ne by congruence. by rewrite Hd. }
  destruct Hc as [u v|u v|d u t|j|u v];
    (destruct (has_undefined _); [simpl; by rewrite Hd|]);
    (destruct (failure net); [simpl; by rewrite Hd|]);
    try (match goal with
         | |- context [<[?cl := <[autoId net := ?data]> _]> st] =>
             destruct (Hadd cl data) as [H1 H2];
             split; [exact H1 | intros _; exact H2]
         end).
  - destruct (docs_of st "doubts" !! j) as [old|] eqn:E; simpl; [|by rewrite Hd].
    rewrite docs_of_insert.
    destruct (decide ("doubts" = coll)) as [<-|Hne].
    + split; [|by intros [|]].
      destruct (decide (j = i)) as [->|];
        [by rewrite lookup_insert_eq | by rewrite lookup_insert_ne, Hd].
    + by rewrite Hd.
  - simpl. rewrite docs_of_insert.
    destruct (decide ("users" = coll)) as [<-|Hne].
    + split; [|by intros [|]].
      destruct (decide (u = i)) as [->|];
        [by rewrite lookup_insert_eq | by rewrite lookup_insert_ne, Hd].
    + by rewrite Hd.
Qed.

(** X2.  Over any sequence of the application's writing operations, no
    document of any collection is ever removed, and a document of the
    answers or of the notes collection is never changed: answers and shared
    resources are append-only. *)
Theorem documents_are_never_removed
    (acts : list Action) (w : World) (coll : string) (i : jsstring)
    (doc : gmap string Value) :
  docs_of (store w) coll !! i = Some doc ->
  is_Some (docs_of (store (perform acts w)) coll !! i) /\
  (coll = "answers" \/ coll = "notes" ->
   docs_of (store (perform acts w)) coll !! i = Some doc).
Proof.
  revert w doc. unfold perform.
  induction acts as [|a acts IH]; intros w doc Hd; simpl; [by rewrite Hd|].
  assert (Hstep : is_Some (docs_of (store (act a w)) coll !! i) /\
                  (coll = "answers" \/ coll = "notes" ->
                   docs_of (store (act a w)) coll !! i = Some doc)).
  { destruct (act_store a w) as [->|(net & c & Hc & _ & ->)];
      [by rewrite Hd | by apply exec_keeps_documents]. }
  destruct Hstep as [[doc' Hd'] Hsame]. split.
  - destruct (IH _ _ Hd') as [H _]. exact H.
  - intros Hcoll. destruct (IH _ _ (Hsame Hcoll)) as [_ H]. exact (H Hcoll).
Qed.

End StoreInvariants.

Section StoreInvariantsMore.
Import App Actors.

(** U2's answer A1 to D1 is in the store; then U1 posts a doubt, resolves
    D1 and U3 signs up: A1 is as it was. *)
Lemma documents_are_never_removed_witness :
  let u1 := {| uid := js "U1"; displayName := Some (js "Asha") |} in
  let u2 := {| uid := js "U2"; displayName := Some (js "Ravi") |} in
  let d1 := {| FeedTypes.id := js "D1"; FeedTypes.userId := js "U1";
               FeedTypes.userName := js "Asha"; FeedTypes.subject := js "DSA";
               FeedTypes.description := js "What is a red-black tree?";
               FeedTypes.createdAt := Some 1%N; FeedTypes.isResolved := false |} in
  let a1 := DoubtDetailsDialog.answer_doc d1 u2 (js "It's a self-balancing BST.") in
  let w := {| store := {[ "answers" := {[ js "A1" := a1 ]} ]};
              accounts := ∅; calls := []; toasts := []; routes := [] |} in
  let acts :=
    [ PostDoubt (Some u1) true {| autoId := js "D2"; failure := None |}
        {| AskDoubt.form :=
             {| values := {| AskDoubt.subject := js "OS";
                             AskDoubt.description := js "What is a semaphore?" |};
                fieldErrors := [] |};
           AskDoubt.isSubmitting := false; AskDoubt.error := None |};
      MarkAsResolved true {| autoId := []; failure := None |} (js "D1")
        DoubtsFeed.init;
      SignUp (fun _ => true) true true (Signup.Created (js "U3")) None
        {| autoId := []; failure := None |} Signup.signup_page ] in
  docs_of (store (perform acts w)) "answers" !! js "A1" = Some a1.
Proof.
  intros u1 u2 d1 a1 w acts.
  destruct (documents_are_never_removed acts w "answers" (js "A1") a1) as [_ H].
  - vm_compute. reflexivity.
  - apply H. by left.
Defined.

(** What one action does to the world outside the component: nothing to
    store and log, or one call of the application, logged and run. *)
Lemma act_calls a w :
  (calls (act a w) = calls w /\ store (act a w) = store w) \/
  exists net c,
    app_call c /\ calls (act a w) = calls w ++ [c] /\
    store (act a w) = (exec net c (store w)).2 /\
    (user_gated a = true -> exists u coll data,
       actor a = Some u /\ c = AddDoc coll data /\
       data !! "userId" = Some (VStr (uid u)) /\
       data !! "userName" = Some (opt_str (displayName u))).
Proof.
  destruct a as [user db net page|url_check user db net page
                |doubt user db net page|db net doubtId page
                |email_check auth db created renamed net page]; simpl.
  - unfold AskDoubt.submit, AskDoubt.onSubmit. unfold_m. simpl.
    destruct (AskDoubt.formSchema _) as [v|]; [|by left].
    destruct user as [u|], db; try by left.
    unfold AskDoubt.setError, AskDoubt.setIsSubmitting. unfold_m. simpl.
    right. exists net, (AddDoc "doubts" (AskDoubt.doubt_doc u v)).
    split; [constructor|].
    destruct (exec _ _ _) as [[] ?]; simpl; (split_and!; try done);
      intros _; eexists u, _, _; (split_and!; try done).
  - unfold ShareResource.submit, ShareResource.onSubmit. unfold_m. simpl.
    destruct (ShareResource.formSchema _ _) as [v|]; [|by left].
    destruct user as [u|], db; try by left.
    unfold ShareResource.setError, ShareResource.setIsSubmitting. unfold_m. simpl.
    right. exists net, (AddDoc "notes" (ShareResource.note_doc u v)).
    split; [constructor|].
    destruct (exec _ _ _) as [[] ?]; simpl; (split_and!; try done);
      intros _; eexists u, _, _; (split_and!; try done).
  - unfold DoubtDetailsDialog.handleSubmit. unfold_m.
    destruct user as [u|]; [|by left]. destruct db; [|by left]. simpl.
    destruct (trim _); [by left|].
    unfold DoubtDetailsDialog.setIsSubmitting, DoubtDetailsDialog.setAnswer.
    unfold_m. simpl.
    right. exists net, (AddDoc "answers"
      (DoubtDetailsDialog.answer_doc doubt u (DoubtDetailsDialog.answer page))).
    split; [constructor|].
    destruct (exec _ _ _) as [[] ?]; simpl; (split_and!; try done);
      intros _; eexists u, _, _; (split_and!; try done).
  - unfold DoubtsFeed.handleMarkAsResolved. unfold_m.
    destruct db; [|by left]. simpl.
    right. exists net, (UpdateDoc "doubts" doubtId (obj [("isResolved", VBool true)])).
    split; [constructor|].
    by destruct (exec _ _ _) as [[] ?].
  - unfold Signup.submit, Signup.onSubmit. unfold_m. simpl.
    destruct (Signup.formSchema _ _) as [v|]; [|by left].
    unfold Signup.setError, Signup.setLoading. unfold_m. simpl.
    destruct auth, db; try by left. simpl.
    unfold Signup.createUser, Signup.account_creation_failed, Signup.setError,
      Signup.setLoading.
    destruct created as [u|e]; unfold_m; simpl; [|by left].
    unfold Signup.updateProfile, Signup.saveProfile, Signup.setError,
      Signup.setLoading.
    destruct renamed as [e|]; unfold_m; simpl; [by left|].
    right. exists net, (SetDoc "users" u (Signup.profile_doc u v)).
    split; [constructor|].
    by destruct (exec _ _ _) as [[] ?].
Qed.

(** X3.  Each writing operation issues at most one call to the document
    store, which is appended to the log of calls; and for a signed-out user
    the three operations that test the user (post a doubt, share a
    resource, submit an answer) issue no call and leave the store as it
    is. *)
Theorem at_most_one_write_per_operation (a : Action) (w : World) :
  (exists new, calls (act a w) = calls w ++ new /\ length new <= 1 /\
               Forall app_call new) /\
  (user_gated a = true -> actor a = None ->
   calls (act a w) = calls w /\ store (act a w) = store w).
Proof.
  destruct (act_calls a w) as [[Hc Hs]|(net & c & Hc & Hl & Hs & Hu)].
  - split; [|done]. exists []. rewrite app_nil_r. simpl. split_and!; [done|lia|done].
  - split.
    + exists [c]. simpl. split_and!; [done|lia|by repeat constructor].
    + intros Hg Ha. destruct (Hu Hg) as (u & ? & ? & Hau & _). congruence.
Qed.

(** A document that an [addDoc] brings into a collection is the data of the
    call. *)
Lemma exec_add_new net cl data st coll i doc :
  docs_of st coll !! i = None ->
  docs_of (exec net (AddDoc cl data) st).2 coll !! i = Some doc ->
  doc = data.
Proof.
  intros Hn. unfold exec.
  destruct (has_undefined _); [simpl; congruence|].
  destruct (failure net); [simpl; congruence|].
  destruct (docs_of st cl !! autoId net); simpl; [congruence|].
  rewrite docs_of_insert. destruct (decide (cl = coll)) as [->|]; [|congruence].
  destruct (decide (autoId net = i)) as [->|].
  - rewrite lookup_insert_eq. congruence.
  - rewrite lookup_insert_ne by done. congruence.
Qed.

(** X4.  A document that posting a doubt, sharing a resource or submitting
    an answer brings into the store carries the uid of the signed-in user
    as [userId] and the user's display name (or null) as [userName]. *)
Theorem new_documents_carry_their_author
    (a : Action) (w : World) (u : User) (coll : string) (i : jsstring)
    (doc : gmap string Value) :
  user_gated a = true ->
  actor a = Some u ->
  docs_of (store w) coll !! i = None ->
  docs_of (store (act a w)) coll !! i = Some doc ->
  doc !! "userId" = Some (VStr (uid u)) /\
  doc !! "userName" = Some (opt_str (displayName u)).
Proof.
  intros Hg Ha Hn Hd.
  destruct (act_calls a w) as [[_ Hs]|(net & c & _ & _ & Hs & Hu)].
  - rewrite Hs in Hd. congruence.
  - destruct (Hu Hg) as (u' & cl & data & Ha' & -> & Hid & Hname).
    rewrite Ha in Ha'. injection Ha' as <-.
    rewrite Hs in Hd. apply (exec_add_new _ _ _ _ _ _ _ Hn) in Hd as ->. done.
Qed.

(** U2 answers D1; the new document A1 is U2's. *)
Lemma new_documents_carry_their_author_witness :
  let u2 := {| uid := js "U2"; displayName := Some (js "Ravi") |} in
  let d1 := {| FeedTypes.id := js "D1"; FeedTypes.userId := js "U1";
               FeedTypes.userName := js "Asha"; FeedTypes.subject := js "DSA";
               FeedTypes.description := js "What is a red-black tree?";
               FeedTypes.createdAt := Some 1%N; FeedTypes.isResolved := false |} in
  let a := SubmitAnswer d1 (Some u2) true {| autoId := js "A1"; failure := None |}
             {| DoubtDetailsDialog.answer := js "It's a self-balancing BST.";
                DoubtDetailsDialog.isSubmitting := false |} in
  DoubtDetailsDialog.answer_doc d1 u2 (js "It's a self-balancing BST.") !! "userId" =
    Some (VStr (js "U2")).
Proof.
  intros u2 d1 a.
  apply (new_documents_carry_their_author a empty_world u2 "answers" (js "A1")
           (DoubtDetailsDialog.answer_doc d1 u2 (js "It's a self-balancing BST.")));
    vm_compute; reflexivity.
Defined.

End StoreInvariantsMore.

(* --------------------------------------------------------------------- *)
(** ** A write that succeeds                                                *)
(* --------------------------------------------------------------------- *)

Section SuccessfulWrites.

Lemma doubt_doc_defined u v : has_undefined (AskDoubt.doubt_doc u v) = false.
Proof.
  unfold AskDoubt.doubt_doc. destruct (displayName u); vm_compute; reflexivity.
Qed.

(** X5.  When the ask-doubt form holds accepted values, the user is signed
    in, the store is configured and the backend commits the write under a
    new id: the doubts collection gains exactly one document, whose
    [userId] is the user's uid, whose [subject] and [description] are the
    values of the form and whose [isResolved] is [false]; every other
    collection is as before; the form is reset, a success toast is shown
    and the user is sent to [/doubts]. *)
Theorem posted_doubt_is_stored
    (u : User) (net : Net) (st : AskDoubt.State) (w : World) (v : AskDoubt.Values) :
  AskDoubt.formSchema (values (AskDoubt.form st)) = Success v ->
  failure net = None ->
  docs_of (store w) "doubts" !! autoId net = None ->
  let r := run (AskDoubt.submit (Some u) true net) st w in
  docs_of (store r.2) "doubts" =
    <[autoId net := AskDoubt.doubt_doc u v]> (docs_of (store w) "doubts") /\
  (forall coll, coll <> "doubts" -> docs_of (store r.2) coll = docs_of (store w) coll) /\
  field (store r.2) "doubts" (autoId net) "userId" = Some (VStr (uid u)) /\
  field (store r.2) "doubts" (autoId net) "subject" =
    Some (VStr (AskDoubt.subject (values (AskDoubt.form st)))) /\
  field (store r.2) "doubts" (autoId net) "description" =
    Some (VStr (AskDoubt.description (values (AskDoubt.form st)))) /\
  field (store r.2) "doubts" (autoId net) "isResolved" = Some (VBool false) /\
  routes r.2 = routes w ++ ["/doubts"] /\
  toasts r.2 = toasts w ++
    [ {| t_variant := Default; t_title := "Success!";
         t_description := Some "Your doubt has been posted successfully." |} ] /\
  r.1 = {| AskDoubt.form := {| values := defaultValues; fieldErrors := [] |};
           AskDoubt.isSubmitting := false; AskDoubt.error := None |}.
Proof.
  intros Hv Hnet Hfresh r. subst r.
  rewrite (ask_submit_valid _ _ _ _ _ Hv). cbv zeta.
  apply ask_formSchema_success in Hv as ->.
  unfold exec. rewrite doubt_doc_defined, Hnet, Hfresh. simpl.
  unfold field. rewrite !docs_of_insert, !decide_True by done.
  rewrite !lookup_insert_eq. simpl.
  split_and!; try reflexivity.
  intros coll Hc. rewrite docs_of_insert. by rewrite decide_False.
Qed.

Lemma posted_doubt_is_stored_witness :
  let u1 := {| uid := js "U1"; displayName := Some (js "Asha") |} in
  let v := {| AskDoubt.subject := js "DSA";
              AskDoubt.description := js "What is a red-black tree?" |} in
  let st := {| AskDoubt.form := {| values := v; fieldErrors := [] |};
               AskDoubt.isSubmitting := false; AskDoubt.error := None |} in
  let net := {| autoId := js "D1"; failure := None |} in
  field (store (run (AskDoubt.submit (Some u1) true net) st empty_world).2)
        "doubts" (js "D1") "isResolved" = Some (VBool false).
Proof.
  intros u1 v st net.
  apply (posted_doubt_is_stored u1 net st empty_world v); reflexivity.
Defined.

Lemma note_doc_defined u v d :
  ShareResource.description v = Some d ->
  has_undefined (ShareResource.note_doc u v) = false.
Proof.
  unfold ShareResource.note_doc. intros ->.
  destruct (displayName u); vm_compute; reflexivity.
Qed.

(** X6.  When the share-resource form holds accepted values with a
    description (the text area always gives one, possibly empty), the user
    is signed in, the store is configured and the backend commits the write
    under a new id: the notes collection gains exactly one document, whose
    [resourceUrl] is the URL of the form and whose [resourceType] is the
    selected type; every other collection is as before; the form is reset
    and the user is sent to [/notes]. *)
Theorem shared_resource_is_stored
    (url_check : jsstring -> bool) (u : User) (net : Net)
    (st : ShareResource.State) (w : World) (v : ShareResource.Values)
    (d : jsstring) :
  ShareResource.formSchema url_check (values (ShareResource.form st)) = Success v ->
  ShareResource.r_description (values (ShareResource.form st)) = Some d ->
  failure net = None ->
  docs_of (store w) "notes" !! autoId net = None ->
  let r := run (ShareResource.submit url_check (Some u) true net) st w in
  docs_of (store r.2) "notes" =
    <[autoId net := ShareResource.note_doc u v]> (docs_of (store w) "notes") /\
  (forall coll, coll <> "notes" -> docs_of (store r.2) coll = docs_of (store w) coll) /\
  field (store r.2) "notes" (autoId net) "userId" = Some (VStr (uid u)) /\
  field (store r.2) "notes" (autoId net) "resourceUrl" =
    Some (VStr (ShareResource.r_url (values (ShareResource.form st)))) /\
  ShareResource.r_resourceType (values (ShareResource.form st)) =
    Some (ShareResource.resourceType v) /\
  field (store r.2) "notes" (autoId net) "resourceType" =
    Some (VStr (ShareResource.type_name (ShareResource.resourceType v))) /\
  routes r.2 = routes w ++ ["/notes"] /\
  r.1 = {| ShareResource.form := {| values := defaultValues; fieldErrors := [] |};
           ShareResource.isSubmitting := false; ShareResource.error := None |}.
Proof.
  intros Hv Hd Hnet Hfresh r. subst r.
  rewrite (share_submit_valid _ _ _ _ _ _ Hv). cbv zeta.
  apply formSchema_success in Hv as (Htopic & Hsubj & Hdesc & Hty & Hurl).
  unfold exec. rewrite (note_doc_defined u v d) by congruence.
  rewrite Hnet, Hfresh. simpl.
  unfold field. rewrite !docs_of_insert, !decide_True by done.
  rewrite !lookup_insert_eq. simpl. rewrite <- Hurl.
  split_and!; try reflexivity; try assumption.
  intros coll Hc. rewrite docs_of_insert. by rewrite decide_False.
Qed.

Lemma shared_resource_is_stored_witness :
  let u1 := {| uid := js "U1"; displayName := Some (js "Asha") |} in
  let raw := {| ShareResource.r_topic := js "Quick Sort Algorithm Explained";
                ShareResource.r_subject := js "DSA";
                ShareResource.r_description := Some [];
                ShareResource.r_resourceType := Some ShareResource.Youtube;
                ShareResource.r_url := js "https://youtu.be/dQw4w9WgXcQ" |} in
  let st := {| ShareResource.form := {| values := raw; fieldErrors := [] |};
               ShareResource.isSubmitting := false; ShareResource.error := None |} in
  let net := {| autoId := js "N1"; failure := None |} in
  field (store (run (ShareResource.submit ShareResource.has_scheme (Some u1) true net)
                  st empty_world).2)
        "notes" (js "N1") "resourceUrl" = Some (VStr (js "https://youtu.be/dQw4w9WgXcQ")).
Proof.
  intros u1 raw st net.
  eapply (shared_resource_is_stored ShareResource.has_scheme u1 net st empty_world);
    reflexivity.
Defined.

End SuccessfulWrites.

(* --------------------------------------------------------------------- *)
(** ** Marking a doubt as resolved                                          *)
(* --------------------------------------------------------------------- *)

Section MarkAsResolved.
Import DoubtsFeed Actors.

(** X7.  [handleMarkAsResolved] never touches the component state.  Without
    a store it only shows the error toast.  With one, it issues the update:
    on an existing doubt that the backend accepts, the doubt's [isResolved]
    becomes [true] with every other field and document as before, and the
    success toast is shown; when the backend rejects the update, or the
    doubt does not exist, the store is unchanged and no toast at all is
    shown (the rejection is not caught). *)
Theorem mark_as_resolved_effects
    (db : bool) (net : Net) (i : jsstring) (st : State) (w : World) :
  let r := run (handleMarkAsResolved db net i) st w in
  r.1 = st /\ accounts r.2 = accounts w /\ routes r.2 = routes w /\
  match db, failure net, docs_of (store w) "doubts" !! i with
  | false, _, _ =>
      store r.2 = store w /\ calls r.2 = calls w /\
      toasts r.2 = toasts w ++ [not_configured]
  | true, None, Some doc =>
      store r.2 =
        <["doubts" := <[i := <["isResolved" := VBool true]> doc]>
                        (docs_of (store w) "doubts")]> (store w) /\
      calls r.2 = calls w ++ [resolve_call i] /\
      toasts r.2 = toasts w ++
        [ {| t_variant := Default; t_title := "Resolved!";
             t_description := Some "You've marked this doubt as resolved." |} ]
  | true, _, _ =>
      store r.2 = store w /\ calls r.2 = calls w ++ [resolve_call i] /\
      toasts r.2 = toasts w
  end.
Proof.
  unfold handleMarkAsResolved, resolve_call. unfold_m.
  destruct db; simpl; [|by destruct st].
  unfold exec. simpl.
  destruct (failure net) as [e|]; simpl; [by destruct st|].
  destruct (docs_of (store w) "doubts" !! i) as [doc|]; simpl; [|by destruct st].
  rewrite resolve_patch. by destruct st.
Qed.

(** X8.  Resolving is idempotent: when the backend accepts both updates,
    pressing Resolve a second time on the same doubt leaves the store as
    the first press left it, and the doubt, if it exists, is resolved. *)
Theorem mark_as_resolved_twice
    (net1 net2 : Net) (i : jsstring) (st1 st2 : State) (w : World) :
  failure net1 = None ->
  failure net2 = None ->
  let w1 := (run (handleMarkAsResolved true net1 i) st1 w).2 in
  let w2 := (run (handleMarkAsResolved true net2 i) st2 w1).2 in
  store w2 = store w1 /\
  (is_Some (docs_of (store w) "doubts" !! i) -> App.resolved w2 i).
Proof.
  intros H1 H2 w1 w2.
  pose proof (mark_as_resolved_effects true net1 i st1 w) as (_ & _ & _ & E1).
  pose proof (mark_as_resolved_effects true net2 i st2 w1) as (_ & _ & _ & E2).
  fold w1 in E1. fold w2 in E2. cbv zeta in E1, E2.
  rewrite H1 in E1. rewrite H2 in E2.
  destruct (docs_of (store w) "doubts" !! i) as [doc|] eqn:Hd.
  - destruct E1 as (S1 & _).
    assert (Hd1 : docs_of (store w1) "doubts" !! i =
                  Some (<["isResolved" := VBool true]> doc)).
    { rewrite S1, docs_of_insert, decide_True by done. by rewrite lookup_insert_eq. }
    rewrite Hd1 in E2. destruct E2 as (S2 & _).
    assert (Hsame : store w2 = store w1).
    { rewrite S2, S1. rewrite docs_of_insert, decide_True by done.
      by rewrite !insert_insert_eq. }
    split; [exact Hsame|]. intros _. unfold App.resolved, field.
    rewrite Hsame, Hd1. simpl. by rewrite lookup_insert_eq.
  - destruct E1 as (S1 & _).
    assert (Hd1 : docs_of (store w1) "doubts" !! i = None) by (by rewrite S1).
    rewrite Hd1 in E2. destruct E2 as (S2 & _).
    split; [exact S2|]. by intros [? [=]].
Qed.

Lemma mark_as_resolved_twice_witness :
  let u1 := {| uid := js "U1"; displayName := Some (js "Asha") |} in
  let w := {| store := {[ "doubts" :=
                {[ js "D1" := AskDoubt.doubt_doc u1
                     {| AskDoubt.subject := js "DSA";
                        AskDoubt.description := js "What is a red-black tree?" |} ]} ]};
              accounts := ∅; calls := []; toasts := []; routes := [] |} in
  let ok := {| autoId := []; failure := None |} in
  App.resolved
    (run (handleMarkAsResolved true ok (js "D1")) init
       (run (handleMarkAsResolved true ok (js "D1")) init w).2).2 (js "D1").
Proof.
  intros u1 w ok.
  apply (mark_as_resolved_twice ok ok (js "D1") init init w eq_refl eq_refl).
  apply is_Some_alt. vm_compute. exact I.
Defined.

End MarkAsResolved.

(* --------------------------------------------------------------------- *)
(** ** An application without its configuration                             *)
(* --------------------------------------------------------------------- *)

Section Unconfigured.
Import App Actors FirebaseInit.

Ltac stays_local :=
  simpl; split_and!; try reflexivity;
  first [ by left | right; eexists; split; reflexivity ].

(** The exported services are there together or not at all. *)
Lemma services_all_or_nothing (c : Config) :
  auth (services c) = isFirebaseConfigured c /\
  db (services c) = isFirebaseConfigured c /\
  storage (services c) = isFirebaseConfigured c /\
  app (services c) = isFirebaseConfigured c.
Proof.
  unfold services. by destruct (isFirebaseConfigured c).
Qed.

(** X9.  When the API key or the project id is missing from the
    environment, the services of lib/firebase.ts are all null, and every
    writing operation run with them stays local: it issues no call, leaves
    the store and the identities as they are, and shows at most one toast,
    a destructive one; the login form likewise shows at most one
    destructive toast and never redirects. *)
Theorem unconfigured_app_issues_no_call (c : Config) :
  isFirebaseConfigured c = false ->
  (auth (services c) = false /\ db (services c) = false) /\
  (forall a w, uses (services c) a ->
     store (act a w) = store w /\ calls (act a w) = calls w /\
     accounts (act a w) = accounts w /\
     (toasts (act a w) = toasts w \/
      exists t, toasts (act a w) = toasts w ++ [t] /\ t_variant t = Destructive)) /\
  (forall email_check signedIn st w,
     let r := run (Login.submit email_check (auth (services c)) signedIn) st w in
     routes r.2 = routes w /\
     (toasts r.2 = toasts w \/
      toasts r.2 = toasts w ++ [Login.configuration_error])).
Proof.
  intros Hc. destruct (services_all_or_nothing c) as (Ha & Hd & _).
  rewrite Hc in Ha, Hd. rewrite Ha, Hd. split_and!; try done.
  - intros a w Hu.
    destruct a as [user db net page|url_check user db net page
                  |doubt user db net page|db net doubtId page
                  |email_check auth db created renamed net page];
      simpl in Hu; rewrite Hc in Hu; [| | | |destruct Hu as [-> Hu]];
      subst; simpl.
    + unfold AskDoubt.submit, AskDoubt.onSubmit. unfold_m. simpl.
      destruct (AskDoubt.formSchema _); [|by stays_local].
      destruct user; simpl; stays_local.
    + unfold ShareResource.submit, ShareResource.onSubmit. unfold_m. simpl.
      destruct (ShareResource.formSchema _ _); [|by stays_local].
      destruct user; simpl; stays_local.
    + unfold DoubtDetailsDialog.handleSubmit. unfold_m.
      destruct user; simpl; stays_local.
    + unfold DoubtsFeed.handleMarkAsResolved. unfold_m. simpl.
      stays_local.
    + unfold Signup.submit, Signup.onSubmit. unfold_m. simpl.
      destruct (Signup.formSchema _ _); [|by stays_local].
      unfold Signup.setError. unfold_m. simpl. stays_local.
  - intros email_check signedIn st w r. subst r.
    unfold Login.submit, Login.onSubmit. unfold_m. simpl.
    destruct (Login.formSchema _ _); simpl; auto.
Qed.

(** No API key: posting a valid doubt as U1 only shows the configuration
    toast. *)
Lemma unconfigured_app_issues_no_call_witness :
  let c := {| apiKey := None; projectId := Some (js "studysync") |} in
  let u1 := {| uid := js "U1"; displayName := Some (js "Asha") |} in
  let a := PostDoubt (Some u1) (db (services c)) {| autoId := js "D1"; failure := None |}
             {| AskDoubt.form :=
                  {| values := {| AskDoubt.subject := js "DSA";
                                  AskDoubt.description := js "What is a red-black tree?" |};
                     fieldErrors := [] |};
                AskDoubt.isSubmitting := false; AskDoubt.error := None |} in
  calls (act a empty_world) = [] /\ store (act a empty_world) = ∅.
Proof.
  intros c u1 a.
  destruct (unconfigured_app_issues_no_call c eq_refl) as (_ & H & _).
  destruct (H a empty_world eq_refl) as (Hs & Hc & _).
  split; [exact Hc | exact Hs].
Defined.

End Unconfigured.

(* --------------------------------------------------------------------- *)
(** ** Sign-up and login                                                    *)
(* --------------------------------------------------------------------- *)

Section SignupAndLogin.

(** X10.  When the sign-up form passes validation, the services are
    configured and the authentication service refuses to create the
    account: no identity is created, no call is issued to the store, no
    toast is shown and nobody is redirected; the form keeps its values, the
    loading state ends, and the page's error is the account-creation
    message chosen by the error's code (email already in use, weak
    password, or unknown). *)
Theorem refused_signup_creates_nothing
    (email_check : jsstring -> bool) (e : FirebaseError)
    (renamed : option FirebaseError) (net : Net)
    (st : Signup.State) (w : World) (v : Signup.Values) :
  Signup.formSchema email_check (values (Signup.form st)) = Success v ->
  let r := run (Signup.submit email_check true true (Signup.Refused e) renamed net)
             st w in
  r.2 = w /\
  values (Signup.form r.1) = values (Signup.form st) /\
  Signup.loading r.1 = false /\
  Signup.error r.1 =
    Some (if bool_decide (code e = js "auth/email-already-in-use") then
            "Account Creation Failed: This email is already registered. Please try logging in instead."
          else if bool_decide (code e = js "auth/weak-password") then
            "Account Creation Failed: The password is too weak. Please use at least 6 characters."
          else
            "Account Creation Failed: An unknown error occurred during account creation.") /\
  Signup.error r.1 <> Some Signup.signup_incomplete.
Proof.
  intros Hv r. subst r.
  unfold Signup.submit, Signup.onSubmit. unfold_m. simpl. rewrite Hv.
  unfold Signup.setError, Signup.setLoading, Signup.createUser,
    Signup.account_creation_failed, Signup.setError, Signup.setLoading.
  unfold_m. simpl. destruct w. simpl.
  split_and!; try reflexivity.
  repeat destruct (bool_decide _); discriminate.
Qed.

Lemma refused_signup_creates_nothing_witness :
  let taken := {| code := js "auth/email-already-in-use";
                  message := js "The email address is already in use." |} in
  Signup.error
    (run (Signup.submit (fun _ => true) true true (Signup.Refused taken) None
            {| autoId := []; failure := None |}) Signup.signup_page empty_world).1 =
    Some "Account Creation Failed: This email is already registered. Please try logging in instead.".
Proof.
  intros taken.
  apply (refused_signup_creates_nothing (fun _ => true) taken None
           {| autoId := []; failure := None |} Signup.signup_page empty_world
           Signup.new_member eq_refl).
Defined.

(** X11.  Validation gates the two authentication forms as well: when the
    sign-up or the login form's values fail its schema, submitting changes
    nothing outside the form (no identity, no call, no toast, no redirect),
    and the issues, of which there is at least one, become the field
    errors. *)
Theorem invalid_credentials_form_stays_local :
  (forall email_check auth db created renamed net st w issues,
     Signup.formSchema email_check (values (Signup.form st)) = Failure issues ->
     let r := run (Signup.submit email_check auth db created renamed net) st w in
     r.2 = w /\ fieldErrors (Signup.form r.1) = issues /\ issues <> [] /\
     values (Signup.form r.1) = values (Signup.form st) /\
     Signup.error r.1 = Signup.error st) /\
  (forall email_check auth signedIn st w issues,
     Login.formSchema email_check (values (Login.form st)) = Failure issues ->
     let r := run (Login.submit email_check auth signedIn) st w in
     r.2 = w /\ fieldErrors (Login.form r.1) = issues /\ issues <> [] /\
     values (Login.form r.1) = values (Login.form st)).
Proof.
  split.
  - intros email_check auth db created renamed net st w issues H r. subst r.
    unfold Signup.submit. unfold_m. simpl. rewrite H. simpl.
    split_and!; try reflexivity.
    unfold Signup.formSchema in H.
    destruct (_ ++ _) eqn:E; [discriminate|]. injection H as <-. discriminate.
  - intros email_check auth signedIn st w issues H r. subst r.
    unfold Login.submit. unfold_m. simpl. rewrite H. simpl.
    split_and!; try reflexivity.
    unfold Login.formSchema in H.
    destruct (_ ++ _) eqn:E; [discriminate|]. injection H as <-. discriminate.
Qed.

Lemma invalid_credentials_form_stays_local_witness :
  let short := {| Signup.name := js "A"; Signup.email := js "asha@example.com";
                  Signup.password := js "12345" |} in
  let st := {| Signup.form := {| values := short; fieldErrors := [] |};
               Signup.loading := false; Signup.error := None |} in
  fieldErrors
    (Signup.form
       (run (Signup.submit (fun _ => true) true true (Signup.Created (js "U1")) None
               {| autoId := []; failure := None |}) st empty_world).1) =
    [ {| path := "name"; msg := "Name must be at least 2 characters." |};
      {| path := "password"; msg := "Password must be at least 6 characters." |} ].
Proof.
  intros short st.
  destruct invalid_credentials_form_stays_local as [H _].
  eapply (H (fun _ => true) true true (Signup.Created (js "U1")) None
            {| autoId := []; failure := None |} st empty_world).
  reflexivity.
Defined.


End SignupAndLogin.

(* --------------------------------------------------------------------- *)
(** ** The navigation bar                                                   *)
(* --------------------------------------------------------------------- *)

Section NavbarLinks.
Import Navbar.

(** X13.  The navigation bar shows the five public links in their order,
    followed by the Dashboard link exactly when a user is signed in; a link
    carries the style of the current page exactly when its target is the
    current path, so at most one link does; and the Logout button is shown
    exactly when the auth state is loaded and a user is signed in. *)
Theorem navbar_links_and_buttons
    (pathname : string) (loading : bool) (user : option User) :
  map (fun r => href (r_link r)) (nav pathname user) =
    ["/"; "/ask-doubt"; "/upload-notes"; "/doubts"; "/notes"] ++
    (if bool_decide (is_Some user) then ["/dashboard"] else []) /\
  (forall r, In r (nav pathname user) ->
     (r_active r = true <-> href (r_link r) = pathname)) /\
  length (List.filter r_active (nav pathname user)) <= 1 /\
  (authButtons loading user = Logout <-> loading = false /\ is_Some user) /\
  (authButtons loading user = LoginAndSignUp <-> loading = false /\ user = None).
Proof.
  split_and!.
  - unfold nav, navLinks, shown. simpl. by destruct (bool_decide (is_Some user)).
  - intros r Hr. unfold nav in Hr. apply in_map_iff in Hr as (l & <- & _). simpl.
    rewrite bool_decide_eq_true. split; congruence.
  - unfold nav, navLinks, shown. simpl.
    destruct (bool_decide (is_Some user)); simpl;
      repeat case_bool_decide; simpl; try lia; congruence.
  - unfold authButtons. destruct loading, user; split; try done;
      try (by intros [? [? [=]]]); try (by intros [[=] ?]); eauto.
  - unfold authButtons. destruct loading, user; split; try done;
      try (by intros [? [=]]); try (by intros [[=] ?]).
Qed.

End NavbarLinks.

(* --------------------------------------------------------------------- *)
(** ** The sign-in guards                                                   *)
(* --------------------------------------------------------------------- *)

Section Guards.
Import AuthProvider PageGuard.

Lemma provide_events (evs : list (option User)) (st : State) :
  evs <> [] ->
  fold_left (fun s u => onAuthStateChanged u s) evs st =
    {| user := default None (last evs); loading := false |}.
Proof.
  revert st. induction evs as [|u evs IH]; intros st Hne; [done|]. simpl.
  destruct evs as [|u' evs]; [reflexivity|].
  rewrite IH by done. reflexivity.
Qed.

(** X14.  With the auth state that [AuthProvider] provides, the ask-doubt
    and share-resource pages show their form exactly when the
    authentication service is configured and the last event of the auth
    listener carried a user, and a loader exactly while the service is
    configured and no event has arrived; otherwise they render nothing,
    push [/login] and show one destructive toast.  The form and the loader
    have no effect. *)
Theorem guarded_pages_need_a_user
    {P : Type} (description : string) (auth : bool) (evs : list (option User))
    (st : P) (w : World) :
  let a := provide auth evs in
  let r := guard description (loading a) (user a) (st, w) in
  (r.1 = Content <-> auth = true /\ exists u, last evs = Some (Some u)) /\
  (r.1 = Loader <-> auth = true /\ evs = []) /\
  (r.1 <> Nothing -> r.2 = (st, w)) /\
  (r.1 = Nothing ->
     r.2.1 = st /\ routes r.2.2 = routes w ++ ["/login"] /\
     toasts r.2.2 = toasts w ++
       [ {| t_variant := Destructive; t_title := "Authentication Required";
            t_description := Some description |} ] /\
     store r.2.2 = store w /\ calls r.2.2 = calls w).
Proof.
  intros a r. subst a r. unfold provide.
  destruct auth.
  - destruct evs as [|u0 evs].
    + simpl. naive_solver.
    + rewrite provide_events by done.
      destruct (last (u0 :: evs)) as [[u|]|] eqn:El; simpl.
      * naive_solver.
      * naive_solver.
      * apply last_None in El. discriminate.
  - simpl. naive_solver.
Qed.

(** X15.  The dashboard's effect fetches only for a signed-in user: for a
    visitor it leaves the component state alone, and once the auth state
    is loaded it pushes [/login] with one destructive toast; while the auth
    state is loading it does nothing.  With a user but no store the fetch
    ends the loading state and sets neither data nor error, so the page
    shows its tabs with whatever they held. *)
Theorem dashboard_effect_guards
    (authLoading db : bool) (user : option User)
    (qd qn qa : option (Dashboard.Settled (list (list N * gmap string Value))))
    (st : Dashboard.State) (w : World) :
  let r := run (Dashboard.effect authLoading user db qd qn qa) st w in
  store r.2 = store w /\ calls r.2 = calls w /\
  match user with
  | None =>
      r.1 = st /\
      (if authLoading then r.2 = w
       else routes r.2 = routes w ++ ["/login"] /\
            toasts r.2 = toasts w ++
              [ {| t_variant := Destructive; t_title := "Authentication Required";
                   t_description := Some "You need to be logged in to view the dashboard." |} ])
  | Some u =>
      r.2 = w /\
      (db = false ->
         Dashboard.loading r.1 = false /\
         dashboardPage false (Some u) r.1 = Content /\
         forall src, Dashboard.data_of src r.1 = Dashboard.data_of src st /\
                     Dashboard.error_of src r.1 = Dashboard.error_of src st)
  end.
Proof.
  intros r. subst r. unfold Dashboard.effect.
  destruct user as [u|].
  - rewrite fetchData_world.
    split_and!; try done; intros ->;
      unfold Dashboard.fetchData, dashboardPage; simpl;
      split_and!; try done; intros []; done.
  - destruct authLoading; simpl; by destruct w.
Qed.

End Guards.

(* --------------------------------------------------------------------- *)
(** ** What the dashboard's tabs show                                       *)
(* --------------------------------------------------------------------- *)

Section DashboardTabs.
Import Dashboard.

(** X16.  After the fetch, the tab of a source whose query succeeded shows
    the records of the query, or the empty note when there are none; the
    tab of a source whose query failed shows the error panel exactly when
    the error's message is not empty, and otherwise what the source held
    before the fetch. *)
Theorem dashboard_tab_after_fetch
    (st : State) (w : World)
    (rd rn ra : Settled (list (list N * gmap string Value))) (src : Source) :
  let st' := (run (fetchData true (Some rd) (Some rn) (Some ra)) st w).1 in
  let r := match src with Doubts => rd | Notes => rn | Answers => ra end in
  tabContent (data_of src st') (error_of src st') =
    match r with
    | Fulfilled [] => EmptyMessage
    | Fulfilled docs => Items (map with_id docs)
    | Rejected e =>
        match message e with
        | _ :: _ => IndexErrorMessage
        | [] => match data_of src st with
                | [] => EmptyMessage
                | old => Items old
                end
        end
    end.
Proof.
  intros st' r. subst st' r. rewrite fetchData_settled.
  destruct src; simpl.
  - destruct rd as [[|d l]|e]; [done|done|]. unfold tabContent. simpl.
    destruct (message e); [by destruct (myDoubts st) | done].
  - destruct rn as [[|d l]|e]; [done|done|]. unfold tabContent. simpl.
    destruct (message e); [by destruct (myNotes st) | done].
  - destruct ra as [[|d l]|e]; [done|done|]. unfold tabContent. simpl.
    destruct (message e); [by destruct (myAnswers st) | done].
Qed.

End DashboardTabs.

(* --------------------------------------------------------------------- *)
(** ** What the live queries show                                           *)
(* --------------------------------------------------------------------- *)

Section LiveQueryViews.
Import LiveQueries.




(** X18.  In the resource library, while no error has occurred, the page
    after a snapshot shows exactly that snapshot's resources as cards, or
    the empty note when there are none, and neither skeleton nor alert;
    an error keeps the resources of the last snapshot in the state (the
    page hides them behind the alert); and without a store the page shows
    the alert that the database is not available, and no card. *)
Theorem notes_page_shows_last_snapshot
    (snaps : list (list NotesPage.Resource)) (st : NotesPage.State) :
  (forall docs,
     NotesPage.error st = None ->
     NotesPage.render (NotesPage.deliver (map Next snaps ++ [Next docs]) st) =
       {| NotesPage.skeletons := false;
          NotesPage.errorAlert := None;
          NotesPage.nothingHereYet := bool_decide (docs = []);
          NotesPage.cards := docs |}) /\
  (forall e later,
     NotesPage.resources
       (NotesPage.deliver (map Next snaps ++ Error e :: later) st) =
     default (NotesPage.resources st) (last snaps)) /\
  NotesPage.render (NotesPage.mount_without_db NotesPage.init) =
    {| NotesPage.skeletons := false;
       NotesPage.errorAlert :=
         Some "Database not available. Please check Firebase configuration.";
       NotesPage.nothingHereYet := false;
       NotesPage.cards := [] |}.
Proof.
  split_and!.
  - intros docs He. rewrite notes_deliver_snapshots. simpl.
    assert (He' : NotesPage.error
                    (match last snaps with
                     | Some docs0 => NotesPage.onNext docs0 st
                     | None => st
                     end) = None)
      by (by destruct (last snaps)).
    unfold NotesPage.render. simpl. rewrite He'. simpl.
    by destruct docs.
  - intros e later. rewrite notes_deliver_snapshots. simpl.
    by destruct (last snaps).
  - reflexivity.
Qed.

Lemma notes_page_shows_last_snapshot_witness :
  NotesPage.render (NotesPage.deliver [Next []] NotesPage.init) =
    {| NotesPage.skeletons := false;
       NotesPage.errorAlert := None;
       NotesPage.nothingHereYet := true;
       NotesPage.cards := [] |}.
Proof.
  destruct (notes_page_shows_last_snapshot [] NotesPage.init) as (H & _).
  exact (H [] eq_refl).
Defined.

(** X19.  The events of the doubts feed's subscription reach nothing
    outside the component but the toasts: the store, the calls and the
    redirects are as before, and at most one toast is added, the error
    toast, exactly when the events hold an error; and while no error has
    occurred, the feed after a snapshot shows exactly that snapshot's
    doubts, or the card of an empty feed. *)
Theorem doubts_feed_shows_last_snapshot
    (evs : list (SnapshotEvent FeedTypes.Doubt))
    (snaps : list (list FeedTypes.Doubt)) (user : option User)
    (st : DoubtsFeed.State) (w : World) :
  (let r := run (DoubtsFeed.deliver evs) st w in
   store r.2 = store w /\ accounts r.2 = accounts w /\
   calls r.2 = calls w /\ routes r.2 = routes w /\
   toasts r.2 = toasts w ++
     (if existsb is_error evs
      then [ {| t_variant := Destructive; t_title := "Error";
                t_description := Some "Could not fetch doubts." |} ]
      else [])) /\
  (forall docs,
     let r := run (DoubtsFeed.deliver (map Next snaps ++ [Next docs])) st w in
     r.2 = w /\
     DoubtsFeed.render user r.1 =
       match docs with
       | [] => DoubtsFeed.QuietInHere
       | _ => DoubtsFeed.Grid (map (DoubtsFeed.card user) docs)
       end).
Proof.
  split.
  - cbv zeta. revert st. induction evs as [|[docs|e] evs IH]; intros st.
    + simpl. by rewrite app_nil_r.
    + change (run (DoubtsFeed.deliver (Next docs :: evs)) st w)
        with (run (DoubtsFeed.deliver evs)
                {| DoubtsFeed.doubts := docs; DoubtsFeed.loading := false |} w).
      apply IH.
    + by destruct w.
  - intros docs r. subst r. rewrite doubts_deliver_snapshots.
    split; [by destruct w|].
    unfold DoubtsFeed.render. simpl. by destruct docs.
Qed.

End LiveQueryViews.
